(** * mavros.param: parameter files and the parameter plugin client

    A shallow embedding of [mavros/mavros/param.py]: the three parameter-file
    classes ([MavProxyParam], [MissionPlannerParam], [QGroundControlParam]),
    the plugin's local store ([ParamPlugin.ParamDict]) and the remote-call
    helpers ([call_pull], [call_list_parameters], [call_get_parameters],
    [call_set_parameters]).

    Python exceptions are values of [exn]; a statement that raises leaves the
    state it has reached, so stateful code is a function from a state to the
    state it ends in together with a [result].  Strings are ASCII texts. *)

From Stdlib Require Import ZArith List String Ascii Bool Lia QArith SpecFloat
  DecimalString DecimalPos.
Import ListNotations.

Local Open Scope string_scope.
Local Open Scope Z_scope.

(** ** Exceptions and results *)

(** The exceptions this module can raise.  [ValueError] is what the
    specification calls FormatError, [ServiceWaitTimeout] what it calls
    ServiceUnavailable; [CsvError] is [csv.Error]. *)
Inductive exn : Type :=
| AttributeError
| IndexError
| ValueError
| TypeError
| SyntaxError
| AssertionError
| KeyError
| RecursionError
| CsvError
| ServiceWaitTimeout.

Inductive result (A : Type) : Type :=
| Ok (a : A)
| Raise (e : exn).

Arguments Ok {A} a.
Arguments Raise {A} e.

(** ** The Python builtins the module relies on *)

Module Py.

(** [float]: IEEE binary64, as [spec_float] with 53 bits of precision. *)
Definition float : Type := spec_float.
Definition prec : Z := 53.
Definition emax : Z := 1024.

(** Sequence indexing [data[i]] for [i >= 0]: out of range raises
    [IndexError]. *)
Definition getitem {A : Type} (data : list A) (i : nat) : result A :=
  match nth_error data i with
  | Some x => Ok x
  | None => Raise IndexError
  end.

(** [x.startswith(p)]. *)
Definition startswith (x p : string) : bool := String.prefix p x.

(** [c in x] for a one-character [c]. *)
Fixpoint contains (c : ascii) (x : string) : bool :=
  match x with
  | EmptyString => false
  | String d rest => Ascii.eqb c d || contains c rest
  end.

(** White space for [str.strip]: tab to carriage return, the four
    separators 28..31 and the blank. *)
Definition isspace (c : ascii) : bool :=
  let n := nat_of_ascii c in
  ((9 <=? n) && (n <=? 13) || (28 <=? n) && (n <=? 32))%nat.

(** White space for [int] and [float] on an ASCII text: tab to carriage
    return and the blank. *)
Definition ISSPACE (c : ascii) : bool :=
  let n := nat_of_ascii c in
  ((9 <=? n) && (n <=? 13) || (n =? 32))%nat.

Fixpoint lstrip_with (sp : ascii -> bool) (x : string) : string :=
  match x with
  | EmptyString => EmptyString
  | String c rest => if sp c then lstrip_with sp rest else x
  end.

Fixpoint rstrip_with (sp : ascii -> bool) (x : string) : string :=
  match x with
  | EmptyString => EmptyString
  | String c rest =>
      match rstrip_with sp rest with
      | EmptyString => if sp c then EmptyString else String c EmptyString
      | r => String c r
      end
  end.

Definition strip_with (sp : ascii -> bool) (x : string) : string :=
  rstrip_with sp (lstrip_with sp x).

(** [x.strip()]. *)
Definition strip (x : string) : string := strip_with isspace x.

Definition isdigit (c : ascii) : bool :=
  let n := nat_of_ascii c in ((48 <=? n) && (n <=? 57))%nat.

Definition digit_value (c : ascii) : Z := Z.of_nat (nat_of_ascii c) - 48.

(** Underscores group digits: each one stands between two digits.
    [prev] tells whether the character before was a digit. *)
Fixpoint underscores_ok (prev : bool) (x : string) : bool :=
  match x with
  | EmptyString => true
  | String c rest =>
      if Ascii.eqb c "_"
      then prev &&
           match rest with
           | String d _ => isdigit d
           | EmptyString => false
           end &&
           underscores_ok false rest
      else underscores_ok (isdigit c) rest
  end.

Fixpoint drop_underscores (x : string) : string :=
  match x with
  | EmptyString => EmptyString
  | String c rest =>
      if Ascii.eqb c "_" then drop_underscores rest
      else String c (drop_underscores rest)
  end.

(** The longest run of digits at the head of [x], its value read after the
    digits [acc] already seen, how many digits it has, and the rest. *)
Fixpoint span_digits (acc : Z) (n : nat) (x : string) : Z * nat * string :=
  match x with
  | String c rest =>
      if isdigit c then span_digits (10 * acc + digit_value c) (S n) rest
      else (acc, n, x)
  | EmptyString => (acc, n, x)
  end.

(** An optional sign: [true] for a minus. *)
Definition take_sign (x : string) : bool * string :=
  match x with
  | String "-" rest => (true, rest)
  | String "+" rest => (false, rest)
  | _ => (false, x)
  end.

(** [sys.get_int_max_str_digits()]: the interpreter converts no [int] of
    more decimal digits from or to a [str]; 4300 digits unless it is
    configured otherwise. *)
Definition int_max_str_digits : nat := 4300.

(** [int(x)] in base ten: [None] stands for [ValueError].  The digits are
    counted without the underscores between them. *)
Definition int_of_string (x : string) : option Z :=
  let x := strip_with ISSPACE x in
  let '(neg, body) := take_sign x in
  if underscores_ok false body then
    match span_digits 0 0 (drop_underscores body) with
    | (_, O, _) => None
    | (v, S n, EmptyString) =>
        if (int_max_str_digits <? S n)%nat then None
        else Some (if neg then - v else v)
    | (_, S _, String _ _) => None
    end
  else None.

Definition lower (c : ascii) : ascii :=
  let n := nat_of_ascii c in
  if ((65 <=? n) && (n <=? 90))%nat then ascii_of_nat (n + 32) else c.

Fixpoint lowercase (x : string) : string :=
  match x with
  | EmptyString => EmptyString
  | String c rest => String (lower c) (lowercase rest)
  end.

(** The binary64 nearest to [m * 10 ^ e10] (ties to even), [neg] its sign. *)
Definition float_of_decimal (neg : bool) (m : Z) (e10 : Z) : float :=
  match m with
  | Zpos p =>
      if 0 <=? e10
      then binary_normalize prec emax
             (if neg then Zneg (p * Z.to_pos (10 ^ e10)) else Zpos (p * Z.to_pos (10 ^ e10)))
             0 neg
      else SFdiv prec emax (S754_finite neg p 0)
             (S754_finite false (Z.to_pos (10 ^ (- e10))) 0)
  | _ => S754_zero neg
  end.

(** The exponent part [e[+-]digits] of a decimal literal, or nothing. *)
Definition take_exponent (x : string) : option (Z * string) :=
  match x with
  | String c rest =>
      if Ascii.eqb (lower c) "e" then
        let '(eneg, digits) := take_sign rest in
        match span_digits 0 0 digits with
        | (_, O, _) => None
        | (v, S _, tail) => Some (if eneg then - v else v, tail)
        end
      else Some (0, x)
  | EmptyString => Some (0, x)
  end.

(** [float(x)]: [None] stands for [ValueError]. *)
Definition float_of_string (x : string) : option float :=
  let x := strip_with ISSPACE x in
  let '(neg, body) := take_sign x in
  let low := lowercase body in
  if String.eqb low "inf" || String.eqb low "infinity" then Some (S754_infinity neg)
  else if String.eqb low "nan" then Some S754_nan
  else if underscores_ok false body then
    let '(ip, ni, after_int) := span_digits 0 0 (drop_underscores body) in
    let '(m, nf, after_frac) :=
      match after_int with
      | String "." rest =>
          let '(m, n, tail) := span_digits ip ni rest in (m, (n - ni)%nat, tail)
      | _ => (ip, O, after_int)
      end in
    match (ni + nf)%nat with
    | O => None
    | S _ =>
        match take_exponent after_frac with
        | Some (e, EmptyString) => Some (float_of_decimal neg m (e - Z.of_nat nf))
        | _ => None
        end
    end
  else None.

(** The decimal text of an [int]: what [str(z)] and the formatting of [z]
    give for an [int] within the limit of [str] below. *)
Definition str_of_int (z : Z) : string := NilZero.string_of_int (Z.to_int z).

(** [str(z)] for an [int]: the decimal text, refused with [ValueError] when
    it has more digits than the limit. *)
Definition str (z : Z) : result string :=
  if (int_max_str_digits <? String.length (str_of_int (Z.abs z)))%nat
  then Raise ValueError
  else Ok (str_of_int z).

(** [sys.getrecursionlimit()]: the depth of the stack at which the
    interpreter raises [RecursionError]; 1000 unless it is configured
    otherwise. *)
Definition recursion_limit : nat := 1000.

(** [str(b)] for a [bool]. *)
Definition str_of_bool (b : bool) : string := if b then "True" else "False".

End Py.

(** ** The [csv] module, for the dialects of this file

    Every dialect below sets [QUOTE_NONE] and neither a quote nor an escape
    character, so the reader never leaves the four states modelled here. *)

Module csv.

Inductive quoting_style : Type :=
| QUOTE_MINIMAL | QUOTE_ALL | QUOTE_NONNUMERIC | QUOTE_NONE.

Record Dialect : Type := {
  delimiter : ascii;
  doublequote : bool;
  skipinitialspace : bool;
  lineterminator : string;
  quoting : quoting_style
}.

Definition field_limit : Z := 131072.

Inductive parser_state : Type :=
| START_RECORD | START_FIELD | IN_FIELD | EAT_CRNL.

(** The reader while it reads one record: the fields saved so far, the
    field being collected and the state. *)
Record parser : Type := {
  fields : list string;
  field : string;
  state : parser_state
}.

Definition parse_reset : parser :=
  {| fields := []; field := ""; state := START_RECORD |}.

Definition parse_save_field (p : parser) (next : parser_state) : parser :=
  {| fields := fields p ++ [field p]; field := ""; state := next |}.

Definition parse_add_char (p : parser) (c : ascii) : result parser :=
  if field_limit <=? Z.of_nat (String.length (field p)) then Raise CsvError
  else Ok {| fields := fields p;
             field := field p ++ String c EmptyString;
             state := IN_FIELD |}.

Definition is_newline (c : ascii) : bool :=
  Ascii.eqb c "010" || Ascii.eqb c "013".

Definition start_field (d : Dialect) (p : parser) (c : ascii) : result parser :=
  if is_newline c then Ok (parse_save_field p EAT_CRNL)
  else if Ascii.eqb c " " && skipinitialspace d then
    Ok {| fields := fields p; field := field p; state := START_FIELD |}
  else if Ascii.eqb c (delimiter d) then Ok (parse_save_field p START_FIELD)
  else parse_add_char p c.

(** One character of a line. *)
Definition parse_process_char (d : Dialect) (p : parser) (c : ascii)
  : result parser :=
  match state p with
  | START_RECORD =>
      if is_newline c
      then Ok {| fields := fields p; field := field p; state := EAT_CRNL |}
      else start_field d p c
  | START_FIELD => start_field d p c
  | IN_FIELD =>
      if is_newline c then Ok (parse_save_field p EAT_CRNL)
      else if Ascii.eqb c (delimiter d) then Ok (parse_save_field p START_FIELD)
      else parse_add_char p c
  | EAT_CRNL =>
      if is_newline c then Ok p else Raise CsvError
  end.

(** The end of a line. *)
Definition parse_process_eol (p : parser) : list string :=
  match state p with
  | START_RECORD | EAT_CRNL => fields p
  | START_FIELD | IN_FIELD => fields p ++ [field p]
  end.

Fixpoint parse_line (d : Dialect) (p : parser) (line : string)
  : result (list string) :=
  match line with
  | EmptyString => Ok (parse_process_eol p)
  | String c rest =>
      match parse_process_char d p c with
      | Ok p' => parse_line d p' rest
      | Raise e => Raise e
      end
  end.

(** [csv.reader(file_, dialect)]: one record per line that iterating over
    [file_] yields; an item is the row the reader yields there or the error
    it raises, which is also the error that [file_] raises when it fails. *)
Definition reader (file_ : list (result string)) (d : Dialect)
  : list (result (list string)) :=
  map (fun item =>
         match item with
         | Ok line => parse_line d parse_reset line
         | Raise e => Raise e
         end) file_.

(** What [writerow] accepts in a row. *)
Inductive cell : Type :=
| CNone
| CStr (s : string)
| CInt (z : Z)
| CBool (b : bool)
| CFloat (f : Py.float).

Fixpoint needs_escape (d : Dialect) (s : string) : bool :=
  match s with
  | EmptyString => false
  | String c rest =>
      Ascii.eqb c (delimiter d) || Py.contains c (lineterminator d)
      || needs_escape d rest
  end.

Fixpoint join (sep : ascii) (texts : list string) : string :=
  match texts with
  | [] => ""
  | [t] => t
  | t :: rest => t ++ String sep (join sep rest)
  end.

Section Writer.

(** [repr] of a [float] (the shortest digits that read back as the same
    number) is left open: nothing below depends on the digits. *)
Variable repr_float : Py.float -> string.

(** The text of a field: a [str] as it is, [None] as the empty text, and
    [str] of any other value. *)
Definition cell_text (c : cell) : result string :=
  match c with
  | CNone => Ok ""
  | CStr s => Ok s
  | CInt z => Py.str z
  | CBool b => Ok (Py.str_of_bool b)
  | CFloat f => Ok (repr_float f)
  end.

(** The fields of a row are taken from left to right.  With [QUOTE_NONE]
    and no escape character a field that holds the delimiter or a
    character of the line terminator cannot be written. *)
Fixpoint row_texts (d : Dialect) (row : list cell) : result (list string) :=
  match row with
  | [] => Ok []
  | c :: rest =>
      match cell_text c with
      | Raise e => Raise e
      | Ok text =>
          if needs_escape d text then Raise CsvError
          else
            match row_texts d rest with
            | Raise e => Raise e
            | Ok texts => Ok (text :: texts)
            end
      end
  end.

(** The line [writer.writerow(row)] hands to the stream's [write]; a
    record made of one empty field cannot be written either. *)
Definition writerow (d : Dialect) (row : list cell) : result string :=
  match row_texts d row with
  | Raise e => Raise e
  | Ok [EmptyString] => Raise CsvError
  | Ok texts => Ok (join (delimiter d) texts ++ lineterminator d)
  end.

End Writer.

End csv.

(** ** Time stamps *)

Module datetime.

Record datetime : Type := {
  year : Z; month : Z; day : Z;
  hour : Z; minute : Z; second : Z
}.

Definition two_digits (n : Z) : string :=
  if n <? 10 then "0" ++ Py.str_of_int n else Py.str_of_int n.

(** [stamp.strftime("%d.%m.%Y %T")]. *)
Definition strftime (t : datetime) : string :=
  two_digits (day t) ++ "." ++ two_digits (month t) ++ "."
  ++ Py.str_of_int (year t) ++ " "
  ++ two_digits (hour t) ++ ":" ++ two_digits (minute t) ++ ":"
  ++ two_digits (second t).

End datetime.

(** ** Text streams *)

Module TextIO.

(** A text stream, as it stands when it is handed to a method: what
    iterating over it yields from there, its lines one after the other
    and, where reading fails (the stream is closed, or its bytes do not
    decode), the error it raises there; and the text written to it so far.
    Reading leaves a stream at its end: the same stream read a second time
    is a stream without lines. *)
Record TextIO : Type := {
  lines : list (result string);
  written : string
}.

(** The lines of a text read in text mode: a line ends at a line feed, a
    carriage return or the two in a row, each read as one line feed, which
    the line keeps; a last line may have no end. *)
Fixpoint splitlines (line : string) (text : string) : list string :=
  match text with
  | EmptyString =>
      match line with
      | EmptyString => []
      | _ => [line]
      end
  | String c rest =>
      if Ascii.eqb c "010" then (line ++ String "010" "") :: splitlines "" rest
      else if Ascii.eqb c "013" then
        (line ++ String "010" "")
          :: splitlines ""
               match rest with
               | String d rest' => if Ascii.eqb d "010" then rest' else rest
               | EmptyString => rest
               end
      else splitlines (line ++ String c "") rest
  end.

(** A stream opened for reading on a text. *)
Definition open_text (text : string) : TextIO :=
  {| lines := map Ok (splitlines "" text); written := "" |}.

Definition write (file_ : TextIO) (text : string) : TextIO :=
  {| lines := lines file_; written := written file_ ++ text |}.

(** The methods of [typing.TextIO] other than [writelines]. *)
Definition other_methods : list string :=
  ["close"; "fileno"; "flush"; "isatty"; "read"; "readable"; "readline";
   "readlines"; "seek"; "seekable"; "tell"; "truncate"; "writable"; "write"].

(** [file_.method(row)] with a tuple of strings for argument.
    [writelines] writes the strings one after the other; the other methods
    of a stream do not take a tuple; and a name that is no attribute of a
    stream, such as [writerow] (a method of csv writers), raises
    [AttributeError] when it is looked up. *)
Definition call_method (file_ : TextIO) (method : string) (row : list string)
  : TextIO * result unit :=
  if String.eqb method "writelines"
  then (write file_ (String.concat "" row), Ok tt)
  else if existsb (String.eqb method) other_methods
  then (file_, Raise TypeError)
  else (file_, Raise AttributeError).

End TextIO.

(** ** Parameters *)

(** The value of a parameter: the scalar kinds of [rclpy.parameter.Parameter]
    (array-valued parameters are left out). *)
Inductive scalar : Type :=
| VNotSet
| VBool (b : bool)
| VInt (z : Z)
| VDouble (f : Py.float)
| VStr (s : string).

(** [rclpy.parameter.Parameter], built as [Parameter(name, value=v)]. *)
Record Parameter_ : Type := {
  name : string;
  value_ : scalar
}.

(** What a loop variable can hold in this module: a [str] or a parameter. *)
Inductive object : Type :=
| OStr (s : string)
| OParameter (p : Parameter_).

(** [p.name]: a [str] has no such attribute. *)
Definition attr_name (p : object) : result string :=
  match p with
  | OParameter q => Ok (name q)
  | OStr _ => Raise AttributeError
  end.

(** [p.value]. *)
Definition attr_value (p : object) : result scalar :=
  match p with
  | OParameter q => Ok (value_ q)
  | OStr _ => Raise AttributeError
  end.

Definition cell_of_value (v : scalar) : csv.cell :=
  match v with
  | VNotSet => csv.CNone
  | VBool b => csv.CBool b
  | VInt z => csv.CInt z
  | VDouble f => csv.CFloat f
  | VStr s => csv.CStr s
  end.

(** ** Dictionaries

    A Python [dict] with [str] keys: the entries in insertion order, each
    key once. *)

Module dict.

Definition dict (V : Type) : Type := list (string * V).

Fixpoint get {V : Type} (d : dict V) (k : string) : option V :=
  match d with
  | [] => None
  | (k', v) :: rest => if String.eqb k k' then Some v else get rest k
  end.

(** [d[k] = v]: a key already present keeps its place. *)
Fixpoint set {V : Type} (d : dict V) (k : string) (v : V) : dict V :=
  match d with
  | [] => [(k, v)]
  | (k', v') :: rest =>
      if String.eqb k k' then (k, v) :: rest else (k', v') :: set rest k v
  end.

Definition keys {V : Type} (d : dict V) : list string := map fst d.

(** [{key(x): x for x in items}] and [dict(pairs)]. *)
Definition of_items {A V : Type} (key : A -> string) (val : A -> V)
  (items : list A) : dict V :=
  fold_left (fun d x => set d (key x) (val x)) items [].

End dict.

(** ** Parameter files *)

(** [ParamFile]: the state of a parameter-file object.  The class defaults
    are [parameters = None], [stamp = None] and target (1, 1). *)
Record ParamFile : Type := {
  parameters : option (dict.dict Parameter_);
  stamp : option datetime.datetime;
  tgt_system : Z;
  tgt_component : Z
}.

Definition ParamFile_new : ParamFile :=
  {| parameters := None; stamp := None; tgt_system := 1; tgt_component := 1 |}.

Definition set_parameters_attr (self : ParamFile) (d : dict.dict Parameter_)
  : ParamFile :=
  {| parameters := Some d; stamp := stamp self;
     tgt_system := tgt_system self; tgt_component := tgt_component self |}.

Definition set_stamp (self : ParamFile) (t : datetime.datetime) : ParamFile :=
  {| parameters := parameters self; stamp := Some t;
     tgt_system := tgt_system self; tgt_component := tgt_component self |}.

(** [to_numeric = lambda x: float(x) if '.' in x else int(x)]. *)
Definition to_numeric (x : string) : result scalar :=
  if Py.contains "." x
  then match Py.float_of_string x with
       | Some f => Ok (VDouble f)
       | None => Raise ValueError
       end
  else match Py.int_of_string x with
       | Some z => Ok (VInt z)
       | None => Raise ValueError
       end.

(** A generator run to its end: what it yielded, in order, and whether it
    then stopped or raised. *)
Record generated (A : Type) : Type := {
  yielded : list A;
  ended : result unit
}.

Arguments yielded {A} g.
Arguments ended {A} g.

(** The loop [for data in reader: body] of a generator whose body either
    goes on to the next row ([Ok None]), yields one item ([Ok (Some p)]) or
    raises. *)
Fixpoint for_rows {A : Type} (body : list string -> result (option A))
  (reader : list (result (list string))) : generated A :=
  match reader with
  | [] => {| yielded := []; ended := Ok tt |}
  | Raise e :: _ => {| yielded := []; ended := Raise e |}
  | Ok data :: rest =>
      match body data with
      | Raise e => {| yielded := []; ended := Raise e |}
      | Ok None => for_rows body rest
      | Ok (Some p) =>
          let g := for_rows body rest in
          {| yielded := p :: yielded g; ended := ended g |}
      end
  end.

(** The iteration of [for p in self.parameters]: a [dict] yields its keys,
    [None] is not iterable. *)
Definition iter_parameters (self : ParamFile) : result (list object) :=
  match parameters self with
  | Some d => Ok (map OStr (dict.keys d))
  | None => Raise TypeError
  end.

(** The state of [save]: the object and the stream. *)
Definition saving : Type := (ParamFile * TextIO.TextIO)%type.

(** The loop [for p in items: body] over a state that a raise leaves as it
    is at that point. *)
Fixpoint for_each {A S : Type} (body : A -> S -> S * result unit)
  (items : list A) (s : S) : S * result unit :=
  match items with
  | [] => (s, Ok tt)
  | x :: rest =>
      match body x s with
      | (s', Ok _) => for_each body rest s'
      | (s', Raise e) => (s', Raise e)
      end
  end.

(** [if self.stamp is None: self.stamp = datetime.datetime.now()], and the
    stamp that holds afterwards. *)
Definition default_stamp (now : datetime.datetime) (self : ParamFile)
  : ParamFile * datetime.datetime :=
  match stamp self with
  | Some t => (self, t)
  | None => (set_stamp self now, now)
  end.

Module MavProxyParam.

Definition CSVDialect : csv.Dialect :=
  {| csv.delimiter := " ";
     csv.doublequote := false;
     csv.skipinitialspace := true;
     csv.lineterminator := String "013" (String "010" "");
     csv.quoting := csv.QUOTE_NONE |}.

Section Methods.

(** [self.CSVDialect]: the dialect of the class of [self]. *)
Variable self_CSVDialect : csv.Dialect.
Variable repr_float : Py.float -> string.

Definition row_body (data : list string) : result (option Parameter_) :=
  match Py.getitem data 0 with
  | Raise e => Raise e
  | Ok d0 =>
      if Py.startswith d0 "#" then Ok None
      else if negb (List.length data =? 2)%nat then Raise ValueError
      else
        match Py.getitem data 1 with
        | Raise e => Raise e
        | Ok d1 =>
            match to_numeric d1 with
            | Raise e => Raise e
            | Ok v => Ok (Some {| name := Py.strip d0; value_ := v |})
            end
        end
  end.

Definition _parse_param_file (file_ : TextIO.TextIO)
  : generated Parameter_ :=
  for_rows row_body (csv.reader (TextIO.lines file_) self_CSVDialect).

(** [self.parameters = {p.name: p for p in self._parse_param_file(file_)}]:
    the assignment happens once the generator is exhausted. *)
Definition load (file_ : TextIO.TextIO) (self : ParamFile)
  : ParamFile * result unit :=
  let g := _parse_param_file file_ in
  match ended g with
  | Ok _ =>
      (set_parameters_attr self (dict.of_items name (fun p => p) (yielded g)),
       Ok tt)
  | Raise e => (self, Raise e)
  end.

(** [writer.writerow(row)], [writer] writing to the stream. *)
Definition writer_writerow (row : list csv.cell) (s : saving)
  : saving * result unit :=
  match csv.writerow repr_float self_CSVDialect row with
  | Ok line => ((fst s, TextIO.write (snd s) line), Ok tt)
  | Raise e => (s, Raise e)
  end.

Definition save_row (p : object) (s : saving) : saving * result unit :=
  match attr_name p with
  | Raise e => (s, Raise e)
  | Ok n =>
      match attr_value p with
      | Raise e => (s, Raise e)
      | Ok v => writer_writerow [csv.CStr n; cell_of_value v] s
      end
  end.

Definition save (now : datetime.datetime) (file_ : TextIO.TextIO)
  (self : ParamFile) : saving * result unit :=
  let '(self, t) := default_stamp now self in
  match TextIO.call_method file_ "writerow"
          ["#NOTE: " ++ datetime.strftime t] with
  | (file_, Raise e) => ((self, file_), Raise e)
  | (file_, Ok _) =>
      match iter_parameters self with
      | Raise e => ((self, file_), Raise e)
      | Ok items => for_each save_row items (self, file_)
      end
  end.

End Methods.

End MavProxyParam.

(** [MissionPlannerParam(MavProxyParam)]: the methods are inherited, the
    dialect is overridden. *)
Module MissionPlannerParam.

Definition CSVDialect : csv.Dialect :=
  {| csv.delimiter := ",";
     csv.doublequote := false;
     csv.skipinitialspace := true;
     csv.lineterminator := String "013" (String "010" "");
     csv.quoting := csv.QUOTE_NONE |}.

End MissionPlannerParam.

Module QGroundControlParam.

Definition CSVDialect : csv.Dialect :=
  {| csv.delimiter := "009";
     csv.doublequote := false;
     csv.skipinitialspace := true;
     csv.lineterminator := String "010" "";
     csv.quoting := csv.QUOTE_NONE |}.

Definition row_body (data : list string) : result (option Parameter_) :=
  match Py.getitem data 0 with
  | Raise e => Raise e
  | Ok d0 =>
      if Py.startswith d0 "#" then Ok None
      else if negb (List.length data =? 5)%nat then Raise ValueError
      else
        match Py.getitem data 2 with
        | Raise e => Raise e
        | Ok d2 =>
            match Py.getitem data 3 with
            | Raise e => Raise e
            | Ok d3 =>
                match to_numeric d3 with
                | Raise e => Raise e
                | Ok v => Ok (Some {| name := Py.strip d2; value_ := v |})
                end
            end
        end
  end.

Definition _parse_param_file (file_ : TextIO.TextIO) : generated Parameter_ :=
  for_rows row_body (csv.reader (TextIO.lines file_) CSVDialect).

Definition load (file_ : TextIO.TextIO) (self : ParamFile)
  : ParamFile * result unit :=
  let g := _parse_param_file file_ in
  match ended g with
  | Ok _ =>
      (set_parameters_attr self (dict.of_items name (fun p => p) (yielded g)),
       Ok tt)
  | Raise e => (self, Raise e)
  end.

(** [to_type]: a [float] is REAL32 (9), an [int] is INT32 (6), and [bool]
    is a subclass of [int].  For any other value the function means to
    raise [ValueError], but the message it builds first,
    [f"unknown type: {type(x):r}"], asks [type] for the format [r], which
    raises [TypeError]. *)
Definition to_type (x : scalar) : result Z :=
  match x with
  | VDouble _ => Ok 9
  | VInt _ | VBool _ => Ok 6
  | VNotSet | VStr _ => Raise TypeError
  end.

Section Save.

Variable repr_float : Py.float -> string.

Definition writer_writerow (row : list csv.cell) (s : saving)
  : saving * result unit :=
  match csv.writerow repr_float CSVDialect row with
  | Ok line => ((fst s, TextIO.write (snd s) line), Ok tt)
  | Raise e => (s, Raise e)
  end.

Definition save_row (p : object) (s : saving) : saving * result unit :=
  let self := fst s in
  match attr_name p with
  | Raise e => (s, Raise e)
  | Ok n =>
      match attr_value p with
      | Raise e => (s, Raise e)
      | Ok v =>
          match to_type v with
          | Raise e => (s, Raise e)
          | Ok t =>
              writer_writerow
                [csv.CInt (tgt_system self); csv.CInt (tgt_component self);
                 csv.CStr n; cell_of_value v; csv.CInt t] s
          end
      end
  end.

(** The three header rows.  The target ids are formatted with their
    decimal text, as [str] gives it for the ids of a MAVLink target, which
    are small numbers. *)
Definition header (self : ParamFile) (t : datetime.datetime)
  : list (list csv.cell) :=
  [ [csv.CStr ("# NOTE: " ++ datetime.strftime t)];
    [csv.CStr ("# Onboard parameters saved by mavparam for ("
               ++ Py.str_of_int (tgt_system self) ++ "."
               ++ Py.str_of_int (tgt_component self) ++ ")")];
    [csv.CStr "# MAV ID"; csv.CStr "COMPONENT ID"; csv.CStr "PARAM NAME";
     csv.CStr "VALUE"; csv.CStr "(TYPE)"] ].

Definition save (now : datetime.datetime) (file_ : TextIO.TextIO)
  (self : ParamFile) : saving * result unit :=
  let '(self, t) := default_stamp now self in
  match for_each writer_writerow (header self t) (self, file_) with
  | (s, Raise e) => (s, Raise e)
  | (s, Ok _) =>
      match iter_parameters (fst s) with
      | Raise e => (s, Raise e)
      | Ok items => for_each save_row items s
      end
  end.

End Save.

End QGroundControlParam.

(** The three parameter-file classes. *)
Inductive ParamFileClass : Type :=
| MavProxy
| MissionPlanner
| QGroundControl.

(** [self.load(file_)], dispatched on the class of [self]. *)
Definition load (cls : ParamFileClass) (file_ : TextIO.TextIO)
  (self : ParamFile) : ParamFile * result unit :=
  match cls with
  | MavProxy => MavProxyParam.load MavProxyParam.CSVDialect file_ self
  | MissionPlanner => MavProxyParam.load MissionPlannerParam.CSVDialect file_ self
  | QGroundControl => QGroundControlParam.load file_ self
  end.

(** [self._parse_param_file(file_)], dispatched on the class of [self]. *)
Definition _parse_param_file (cls : ParamFileClass) (file_ : TextIO.TextIO)
  : generated Parameter_ :=
  match cls with
  | MavProxy => MavProxyParam._parse_param_file MavProxyParam.CSVDialect file_
  | MissionPlanner =>
      MavProxyParam._parse_param_file MissionPlannerParam.CSVDialect file_
  | QGroundControl => QGroundControlParam._parse_param_file file_
  end.

(** [self.save(file_)], dispatched on the class of [self]; [now] is what
    [datetime.datetime.now()] returns. *)
Definition save (repr_float : Py.float -> string) (cls : ParamFileClass)
  (now : datetime.datetime) (file_ : TextIO.TextIO) (self : ParamFile)
  : saving * result unit :=
  match cls with
  | MavProxy =>
      MavProxyParam.save MavProxyParam.CSVDialect repr_float now file_ self
  | MissionPlanner =>
      MavProxyParam.save MissionPlannerParam.CSVDialect repr_float now file_ self
  | QGroundControl => QGroundControlParam.save repr_float now file_ self
  end.

(** ** The middleware: services, clients and the trace of a run *)

(** [TIMEOUT = 5.0], in seconds. *)
Definition TIMEOUT : Q := 5.

Inductive Service : Type :=
| ListParameters | GetParameters | SetParameters | ParamPull | ParamSetV2.

(** A service client: what [create_client(srv_type, srv_name)] returns. *)
Record Client : Type := {
  srv_type : Service;
  srv_name : string
}.

Definition create_client (t : Service) (n : string) : Client :=
  {| srv_type := t; srv_name := n |}.

(** A node, known by its name. *)
Record Node : Type := { node_id : string }.

(** [rcl_interfaces.msg.ParameterValue], the wire form of a value: a tagged
    union, modelled by the value it carries. *)
Definition ParameterValue : Type := scalar.

(** [rcl_interfaces.msg.Parameter]. *)
Record ParameterMsg : Type := {
  msg_name : string;
  msg_value : ParameterValue
}.

(** [rcl_interfaces.msg.SetParametersResult]. *)
Record SetParametersResult : Type := {
  successful : bool;
  reason : string
}.

(** [p.to_parameter_msg()] and [Parameter.from_parameter_msg(pmsg)]. *)
Definition to_parameter_msg (p : Parameter_) : ParameterMsg :=
  {| msg_name := name p; msg_value := value_ p |}.

Definition from_parameter_msg (pmsg : ParameterMsg) : Parameter_ :=
  {| name := msg_name pmsg; value_ := msg_value pmsg |}.

Definition parameter_from_parameter_value (name : string)
  (parameter_value : ParameterValue) : Parameter_ :=
  let pmsg := {| msg_name := name; msg_value := parameter_value |} in
  from_parameter_msg pmsg.

(** The fields of [mavros_msgs.msg.ParamEvent] that the module reads. *)
Record ParamEvent : Type := {
  param_id : string;
  value : ParameterValue
}.

Inductive Request : Type :=
| ListRequest (prefixes : list string)
| GetRequest (names : list string)
| SetRequest (parameters : list ParameterMsg)
| PullRequest (force_pull : bool).

Inductive level : Type := DEBUG | ERROR.

(** What a run does to the world outside, in order. *)
Inductive event : Type :=
| Waited (client : Client) (timeout_sec : Q)
| Sent (client : Client) (req : Request)
| Logged (lv : level) (text : string)
| Subscribed (topic : string * string)
| Delivered (msg : ParamEvent).

Definition trace : Type := list event.

(** Code that acts on the middleware: from the trace so far to the trace it
    leaves and a result. *)
Definition IO (A : Type) : Type := trace -> trace * result A.

Definition ret {A : Type} (a : A) : IO A := fun tr => (tr, Ok a).

Definition raise {A : Type} (e : exn) : IO A := fun tr => (tr, Raise e).

Definition bind {A B : Type} (c : IO A) (k : A -> IO B) : IO B :=
  fun tr =>
    match c tr with
    | (tr', Ok a) => k a tr'
    | (tr', Raise e) => (tr', Raise e)
    end.

Definition emit (e : event) : IO unit := fun tr => ((tr ++ [e])%list, Ok tt).

Declare Scope io_scope.
Delimit Scope io_scope with io.
Notation "x <- c ;; k" := (bind c (fun x => k))
  (at level 61, c at next level, right associativity) : io_scope.
Notation "c ;; k" := (bind c (fun _ => k))
  (at level 61, right associativity) : io_scope.

(** Whether a statement sent a request: the [Sent] events of a trace. *)
Definition requests (tr : trace) : list (Client * Request) :=
  flat_map (fun e => match e with Sent c r => [(c, r)] | _ => [] end) tr.

(** What can be passed as an argument of a remote-call helper. *)
Inductive arg_value : Type :=
| ANone
| ANode (n : Node)
| AClient (c : Client)
| AStr (s : string)
| AStrings (l : list string)
| AParameters (l : list Parameter_)
| AOther.

(** An argument at a call site, in the order written. *)
Inductive argument : Type :=
| Positional (v : arg_value)
| Keyword (k : string) (v : arg_value).

Section Middleware.

(** The response type of the pull service ([mavros_msgs.srv.ParamPull]). *)
Variable PullResponse : Type.

(** The remote side.  Each answer may depend on all that happened before:
    whether [client.wait_for_service(timeout_sec)] finds the service ready
    in time, what the service replies to a request, and which change events
    reach the subscription of a node while the node spins for a reply. *)
Record Remote : Type := {
  wait_ready : trace -> Client -> Q -> bool;
  list_reply : trace -> Client -> list string -> list string;
  get_reply : trace -> Client -> list string -> list ParameterValue;
  set_reply : trace -> Client -> list ParameterMsg -> list SetParametersResult;
  pull_reply : trace -> Client -> bool -> PullResponse;
  delivered : trace -> Node -> list ParamEvent
}.

Variable remote : Remote.

Local Open Scope io_scope.

(** [client.wait_for_service(timeout_sec=t)]. *)
Definition wait_for_service (client : Client) (t : Q) : IO bool :=
  fun tr => ((tr ++ [Waited client t])%list, Ok (wait_ready remote tr client t)).

(** [client.call_async(req)] followed by
    [rclpy.spin_until_future_complete] and [future.result()]: the request
    is sent and the reply awaited, with no time limit.  The helpers hold no
    state of their own, so the callbacks the node runs meanwhile do not show
    in what they return. *)
Definition call {A : Type} (client : Client) (req : Request)
  (reply : trace -> A) : IO A :=
  fun tr => ((tr ++ [Sent client req])%list, Ok (reply tr)).

(** [if client is None: assert node_name is not None;
     client = node.create_client(srv, f"{node_name}/suffix")]. *)
Definition resolve_client (srv : Service) (suffix : string)
  (node_name : option string) (client : option Client) : IO Client :=
  match client with
  | Some c => ret c
  | None =>
      match node_name with
      | None => raise AssertionError
      | Some n => ret (create_client srv (n ++ "/" ++ suffix))
      end
  end.

Definition call_list_parameters (self : arg_value) (node : Node)
  (node_name : option string) (client : option Client)
  (prefixes : list string) : IO (list string) :=
  client <- resolve_client ListParameters "list_parameters" node_name client ;;
  ready <- wait_for_service client TIMEOUT ;;
  if negb ready then
    emit (Logged ERROR "wait for service time out") ;;
    raise ServiceWaitTimeout
  else
    resp <- call client (ListRequest prefixes)
              (fun tr => list_reply remote tr client prefixes) ;;
    emit (Logged DEBUG "list result") ;;
    ret resp.

Definition call_get_parameters (self : arg_value) (node : Node)
  (node_name : option string) (client : option Client)
  (names : list string) : IO (dict.dict ParameterValue) :=
  client <- resolve_client GetParameters "get_parameters" node_name client ;;
  ready <- wait_for_service client TIMEOUT ;;
  if negb ready then
    emit (Logged ERROR "wait for service time out") ;;
    raise ServiceWaitTimeout
  else
    resp <- call client (GetRequest names)
              (fun tr => get_reply remote tr client names) ;;
    emit (Logged DEBUG "get result") ;;
    ret (dict.of_items fst snd (combine names resp)).

Definition call_set_parameters (self : arg_value) (node : Node)
  (node_name : option string) (client : option Client)
  (parameters : list Parameter_) : IO (dict.dict SetParametersResult) :=
  client <- resolve_client SetParameters "set_parameters" node_name client ;;
  ready <- wait_for_service client TIMEOUT ;;
  if negb ready then
    emit (Logged ERROR "wait for service time out") ;;
    raise ServiceWaitTimeout
  else
    let msgs := map to_parameter_msg parameters in
    resp <- call client (SetRequest msgs)
              (fun tr => set_reply remote tr client msgs) ;;
    emit (Logged DEBUG "set result") ;;
    ret (dict.of_items fst snd (combine (map name parameters) resp)).

End Middleware.

Arguments wait_ready {PullResponse} r tr client t.
Arguments list_reply {PullResponse} r tr client prefixes.
Arguments get_reply {PullResponse} r tr client names.
Arguments set_reply {PullResponse} r tr client parameters.
Arguments pull_reply {PullResponse} r tr client force_pull.
Arguments delivered {PullResponse} r tr node.
Arguments wait_for_service {PullResponse} remote client t tr.
Arguments call_list_parameters {PullResponse} remote self node node_name client prefixes tr.
Arguments call_get_parameters {PullResponse} remote self node node_name client names tr.
Arguments call_set_parameters {PullResponse} remote self node node_name client parameters tr.

(** ** Calling a helper

    The helpers are declared [def call_...(self, *, node, node_name=None,
    client=None, <list>=[])]: one positional parameter, [self], and four
    keyword-only ones. *)

(** Python's grammar refuses a positional argument written after a keyword
    argument. *)
Fixpoint positional_follows_keyword (seen_keyword : bool) (args : list argument)
  : bool :=
  match args with
  | [] => false
  | Positional _ :: rest => seen_keyword || positional_follows_keyword seen_keyword rest
  | Keyword _ _ :: rest => positional_follows_keyword true rest
  end.

Definition positionals (args : list argument) : list arg_value :=
  flat_map (fun a => match a with Positional v => [v] | Keyword _ _ => [] end) args.

Definition keywords (args : list argument) : list (string * arg_value) :=
  flat_map (fun a => match a with Positional _ => [] | Keyword k v => [(k, v)] end) args.

Definition keyword (k : string) (args : list argument) : option arg_value :=
  dict.get (keywords args) k.

(** The arguments of a call bound to the parameters
    [(self, *, node, node_name=None, client=None, parameters=[])]. *)
Record bound : Type := {
  b_self : arg_value;
  b_node : Node;
  b_node_name : option string;
  b_client : option Client;
  b_parameters : list Parameter_
}.

(** Binding for [call_set_parameters].  The grammar comes first; then the
    one positional argument is [self] and [node] is required; a parameter
    that is not passed takes its default.  An argument of a kind the body
    cannot use is not followed further: [TypeError] stands for the failure. *)
Definition bind_arguments (args : list argument) : result bound :=
  if positional_follows_keyword false args then Raise SyntaxError
  else if negb (forallb (fun kv => existsb (String.eqb (fst kv))
                           ["self"; "node"; "node_name"; "client"; "parameters"])
                  (keywords args))
  then Raise TypeError
  else
    match positionals args, keyword "node" args with
    | [self], Some (ANode node) =>
        match
          match keyword "node_name" args with
          | None | Some ANone => Some None
          | Some (AStr s) => Some (Some s)
          | Some _ => None
          end,
          match keyword "client" args with
          | None | Some ANone => Some None
          | Some (AClient c) => Some (Some c)
          | Some _ => None
          end,
          match keyword "parameters" args with
          | None => Some []
          | Some (AParameters l) => Some l
          | Some _ => None
          end
        with
        | Some node_name, Some client, Some parameters =>
            Ok {| b_self := self; b_node := node; b_node_name := node_name;
                  b_client := client; b_parameters := parameters |}
        | _, _, _ => Raise TypeError
        end
    | _, _ => Raise TypeError
    end.

(** ** The parameter plugin *)

(** What the store reads of its plugin: [self._pm._node] and
    [self._pm.set_parameters]. *)
Record plugin_ref : Type := {
  pm_node : Node;
  pm_set_parameters : Client
}.

(** A Python object, as far as the store handles one: [None], a
    [Parameter], the plugin, or a [dict] with [str] keys. *)
Local Unset Elimination Schemes.

Inductive pyobj : Type :=
| PNone
| PParameter (p : Parameter_)
| PPlugin (pm : plugin_ref)
| PDict (d : list (string * pyobj)).

Local Set Elimination Schemes.

(** [v[key]]. *)
Definition subscript (v : pyobj) (key : string) : result pyobj :=
  match v with
  | PDict d =>
      match dict.get d key with
      | Some item => Ok item
      | None => Raise KeyError
      end
  | PNone | PParameter _ | PPlugin _ => Raise TypeError
  end.

(** [v[key] = item]: the object afterwards. *)
Definition assign_item (v : pyobj) (key : string) (item : pyobj) : result pyobj :=
  match v with
  | PDict d => Ok (PDict (dict.set d key item))
  | PNone | PParameter _ | PPlugin _ => Raise TypeError
  end.

(** A list of objects passed as an argument. *)
Fixpoint as_parameters (l : list pyobj) : option (list Parameter_) :=
  match l with
  | [] => Some []
  | PParameter p :: rest => option_map (cons p) (as_parameters rest)
  | _ :: _ => None
  end.

Definition list_argument (l : list pyobj) : arg_value :=
  match as_parameters l with
  | Some ps => AParameters ps
  | None => AOther
  end.

(** An instance of [ParamPlugin.ParamDict], a subclass of
    [collections.UserDict]: the attributes of the instance itself, its
    [__dict__].  The class has the attribute [_pm = None] and its
    methods, and it overrides [__getattr__] and [__setattr__]: an
    attribute that is found neither in the instance nor in the class is
    looked up in [self.data], and every assignment to an attribute is an
    assignment to an item. *)
Record ParamDict : Type := {
  __dict__ : dict.dict pyobj
}.

(** [object.__new__(ParamDict)]: an instance with no attribute of its own. *)
Definition ParamDict___new__ : ParamDict := {| __dict__ := [] |}.

(** The expression [self.data], with [depth] frames left on the stack.
    When the instance has no attribute [data], neither has the class, and
    [__getattr__("data")] runs: [return self.data["data"]], which
    evaluates [self.data] again, one frame deeper. *)
Fixpoint self_data (depth : nat) (self : ParamDict) : result pyobj :=
  match dict.get (__dict__ self) "data" with
  | Some v => Ok v
  | None =>
      match depth with
      | O => Raise RecursionError
      | S depth' =>
          match self_data depth' self with
          | Ok v => subscript v "data"
          | Raise e => Raise e
          end
      end
  end.

(** The expression [self._pm]: the attribute of the instance, or that of
    the class, which is [None]. *)
Definition self_pm (self : ParamDict) : pyobj :=
  match dict.get (__dict__ self) "_pm" with
  | Some v => v
  | None => PNone
  end.

(** [ParamDict.__getitem__] and [ParamDict.__getattr__], the same body:
    [return self.data[key]]. *)
Definition __getitem__ (key : string) (self : ParamDict) : result pyobj :=
  match self_data Py.recursion_limit self with
  | Ok v => subscript v key
  | Raise e => Raise e
  end.

Definition __getattr__ (key : string) (self : ParamDict) : result pyobj :=
  match self_data Py.recursion_limit self with
  | Ok v => subscript v key
  | Raise e => Raise e
  end.

(** [ParamDict._event_handler]:
    [self.data[msg.param_id] = parameter_from_parameter_value(...)].  The
    mapping is an object of its own, which the assignment changes in
    place; [self.data] is found in the instance or not at all. *)
Definition _event_handler (msg : ParamEvent) (self : ParamDict)
  : ParamDict * result unit :=
  let p := parameter_from_parameter_value (param_id msg) (value msg) in
  match self_data Py.recursion_limit self with
  | Raise e => (self, Raise e)
  | Ok v =>
      match assign_item v (param_id msg) (PParameter p) with
      | Raise e => (self, Raise e)
      | Ok v' => ({| __dict__ := dict.set (__dict__ self) "data" v' |}, Ok tt)
      end
  end.

(** The three argument expressions of the call in [__setitem__]:
    [self._pm._node], [self._pm.set_parameters] and [[value]]. *)
Inductive arg_expr : Type :=
| E_pm_node
| E_pm_set_parameters
| E_value_list.

(** A call as it is written: its arguments in order, each with its keyword
    or positional. *)
Definition call_syntax : Type := list (option string * arg_expr).

(** Lines 157-158:
    [call_set_parameters(node=self._pm._node,
                         client=self._pm.set_parameters, [value])]. *)
Definition written_call : call_syntax :=
  [(Some "node", E_pm_node);
   (Some "client", E_pm_set_parameters);
   (None, E_value_list)].

(** Whether Python refuses a call when it compiles it. *)
Definition refused (call : call_syntax) : bool :=
  positional_follows_keyword false
    (map (fun a => match fst a with
                   | Some k => Keyword k ANone
                   | None => Positional ANone
                   end) call).

(** The value of an argument expression: on an object without the
    attribute, [AttributeError]. *)
Definition eval_arg (value : pyobj) (self : ParamDict) (e : arg_expr)
  : result arg_value :=
  match e with
  | E_pm_node =>
      match self_pm self with
      | PPlugin pm => Ok (ANode (pm_node pm))
      | PNone | PParameter _ | PDict _ => Raise AttributeError
      end
  | E_pm_set_parameters =>
      match self_pm self with
      | PPlugin pm => Ok (AClient (pm_set_parameters pm))
      | PNone | PParameter _ | PDict _ => Raise AttributeError
      end
  | E_value_list => Ok (list_argument [value])
  end.

(** The arguments of a call are evaluated from left to right. *)
Fixpoint eval_args (value : pyobj) (self : ParamDict) (call : call_syntax)
  : result (list argument) :=
  match call with
  | [] => Ok []
  | (k, e) :: rest =>
      match eval_arg value self e with
      | Raise err => Raise err
      | Ok v =>
          match eval_args value self rest with
          | Raise err => Raise err
          | Ok args =>
              Ok (match k with
                  | Some k => Keyword k v
                  | None => Positional v
                  end :: args)
          end
      end
  end.

(** [ParamPlugin]: its node, its time limit, the store and the
    subscription once [param] has made them, and the clients of its five
    services (the base class makes each client on first use). *)
Record ParamPlugin : Type := {
  _node : Node;
  timeout_sec : Q;
  _parameters : option ParamDict;
  _event_sub : option (string * string);
  list_parameters : Client;
  get_parameters : Client;
  set_parameters : Client;
  pull : Client;
  set_ : Client
}.

Definition with_parameters (self : ParamPlugin) (d : option ParamDict)
  (sub : option (string * string)) : ParamPlugin :=
  {| _node := _node self; timeout_sec := timeout_sec self;
     _parameters := d; _event_sub := sub;
     list_parameters := list_parameters self;
     get_parameters := get_parameters self;
     set_parameters := set_parameters self;
     pull := pull self; set_ := set_ self |}.

Section Plugin.

Variable PullResponse : Type.
Variable remote : Remote PullResponse.

Local Open Scope io_scope.

(** The call of [call_set_parameters] with the arguments as written at the
    call site. *)
Definition apply_call_set_parameters (args : list argument)
  : IO (dict.dict SetParametersResult) :=
  match bind_arguments args with
  | Raise e => raise e
  | Ok b =>
      call_set_parameters remote (b_self b) (b_node b) (b_node_name b)
        (b_client b) (b_parameters b)
  end.

(** The call statement of [__setitem__].  Python compiles a function
    before anything of it runs, and refuses the function when a call in it
    puts a positional argument after a keyword argument; the methods below
    take the call as they find it written, so that what they do can be
    stated for the call of the source, [written_call], and for any call
    that stands in its place. *)
Variable call : call_syntax.

(** The two statements of [ParamDict.__setitem__], once the function is
    compiled: [self.data[key] = value] and then the call. *)
Definition setitem_body (key : string) (value : pyobj) (self : ParamDict)
  : trace -> (ParamDict * trace) * result unit :=
  fun tr =>
    match self_data Py.recursion_limit self with
    | Raise e => ((self, tr), Raise e)
    | Ok v =>
        match assign_item v key value with
        | Raise e => ((self, tr), Raise e)
        | Ok v' =>
            let self := {| __dict__ := dict.set (__dict__ self) "data" v' |} in
            match eval_args value self call with
            | Raise e => ((self, tr), Raise e)
            | Ok args =>
                match apply_call_set_parameters args tr with
                | (tr', Ok _) => ((self, tr'), Ok tt)
                | (tr', Raise e) => ((self, tr'), Raise e)
                end
            end
        end
    end.

(** [ParamDict.__setitem__]: refused as a whole when its call is, before
    any statement of it runs. *)
Definition __setitem__ (key : string) (value : pyobj) (self : ParamDict)
  : trace -> (ParamDict * trace) * result unit :=
  fun tr =>
    if refused call then ((self, tr), Raise SyntaxError)
    else setitem_body key value self tr.

(** [ParamDict.__setattr__]: [self[key] = value]. *)
Definition __setattr__ (key : string) (value : pyobj) (self : ParamDict)
  : trace -> (ParamDict * trace) * result unit :=
  __setitem__ key value self.

(** [ParamDict()]: [UserDict.__init__] runs [self.data = {}] on the new
    instance, which is [__setattr__("data", {})]. *)
Definition ParamDict_new : trace -> trace * result ParamDict :=
  fun tr =>
    match __setattr__ "data" (PDict []) ParamDict___new__ tr with
    | ((self, tr'), Ok _) => (tr', Ok self)
    | ((_, tr'), Raise e) => (tr', Raise e)
    end.

(** [ParamPlugin.call_pull].  While [rclpy.spin_until_future_complete]
    waits for the response, the node runs the callbacks of its
    subscriptions on the change events that arrive.  None of them is a
    method of the plugin: the only subscription the plugin makes is the one
    in [param], after [ParamDict()] has returned, and [ParamDict()] does
    not return. *)
Definition call_pull (force_pull : bool) (self : ParamPlugin)
  : trace -> (ParamPlugin * trace) * result PullResponse :=
  fun tr =>
    match wait_for_service remote (pull self) (timeout_sec self) tr with
    | (tr, Raise e) => ((self, tr), Raise e)
    | (tr, Ok false) => ((self, tr), Raise ServiceWaitTimeout)
    | (tr, Ok true) =>
        let req := PullRequest force_pull in
        let msgs := delivered remote tr (_node self) in
        let resp := pull_reply remote tr (pull self) force_pull in
        ((self,
          (tr ++ Sent (pull self) req :: map Delivered msgs
              ++ [Logged DEBUG "pull result"])%list),
         Ok resp)
    end.

(** [ParamPlugin.param]: the store, made on first use, given its plugin,
    subscribed to the topic [('param', 'event')] and then pulled.  The
    store is one object: what [__setattr__] does to it shows in
    [self._parameters]. *)
Definition param (self : ParamPlugin)
  : trace -> (ParamPlugin * trace) * result (option ParamDict) :=
  fun tr =>
    match _parameters self with
    | Some d => ((self, tr), Ok (Some d))
    | None =>
        match ParamDict_new tr with
        | (tr, Raise e) => ((self, tr), Raise e)
        | (tr, Ok d) =>
            let pm := {| pm_node := _node self;
                         pm_set_parameters := set_parameters self |} in
            match __setattr__ "_pm" (PPlugin pm) d tr with
            | ((d, tr), Raise e) =>
                ((with_parameters self (Some d) (_event_sub self), tr), Raise e)
            | ((d, tr), Ok _) =>
                let self :=
                  with_parameters self (Some d) (Some ("param", "event")) in
                let tr := (tr ++ [Subscribed ("param", "event")])%list in
                match call_pull false self tr with
                | (st, Ok _) => (st, Ok (_parameters (fst st)))
                | (st, Raise e) => (st, Raise e)
                end
            end
        end
    end.

End Plugin.

Arguments apply_call_set_parameters {PullResponse} remote args tr.
Arguments setitem_body {PullResponse} remote call key value self tr.
Arguments __setitem__ {PullResponse} remote call key value self tr.
Arguments __setattr__ {PullResponse} remote call key value self tr.
Arguments ParamDict_new {PullResponse} remote call tr.
Arguments call_pull {PullResponse} remote force_pull self tr.
Arguments param {PullResponse} remote call self tr.

(** [ParamPlugin(node)]: [timeout_sec = 5.0], no store yet, and the five
    clients the plugin creates on the node. *)
Definition ParamPlugin_new (node : Node)
  (list_c get_c set_parameters_c pull_c set_c : Client) : ParamPlugin :=
  {| _node := node; timeout_sec := 5;
     _parameters := None; _event_sub := None;
     list_parameters := list_c; get_parameters := get_c;
     set_parameters := set_parameters_c; pull := pull_c; set_ := set_c |}.

(** ** Notions used in the statements *)

(** [self.CSVDialect] and the body of the parse loop, by class. *)
Definition CSVDialect (cls : ParamFileClass) : csv.Dialect :=
  match cls with
  | MavProxy => MavProxyParam.CSVDialect
  | MissionPlanner => MissionPlannerParam.CSVDialect
  | QGroundControl => QGroundControlParam.CSVDialect
  end.

Definition row_body (cls : ParamFileClass) (data : list string)
  : result (option Parameter_) :=
  match cls with
  | MavProxy | MissionPlanner => MavProxyParam.row_body data
  | QGroundControl => QGroundControlParam.row_body data
  end.

(** The number of fields a data row must have. *)
Definition field_count (cls : ParamFileClass) : nat :=
  match cls with
  | MavProxy | MissionPlanner => 2
  | QGroundControl => 5
  end.

(** The rows the csv reader yields for a stream, when it reads every line
    without error. *)
Definition rows_of (cls : ParamFileClass) (file_ : TextIO.TextIO)
  (rows : list (list string)) : Prop :=
  csv.reader (TextIO.lines file_) (CSVDialect cls) = map Ok rows.

(** A comment row: its first field starts with [#]. *)
Definition is_comment (data : list string) : bool :=
  match data with
  | d0 :: _ => Py.startswith d0 "#"
  | [] => false
  end.

(** A row the parse loop gets through: a comment row or a valid data row. *)
Definition row_accepted (cls : ParamFileClass) (data : list string) : bool :=
  match row_body cls data with
  | Ok _ => true
  | Raise _ => false
  end.

(** What a row makes the generator yield. *)
Definition row_yield (cls : ParamFileClass) (data : list string)
  : list Parameter_ :=
  match row_body cls data with
  | Ok (Some p) => [p]
  | _ => []
  end.

(** A valid data row that carries the name [n]. *)
Definition carries (cls : ParamFileClass) (n : string) (data : list string)
  : bool :=
  existsb (fun p => String.eqb (name p) n) (row_yield cls data).

(** The invariant of a mapping from names to parameters: every key is the
    name of the parameter stored under it. *)
Definition keys_are_names (d : dict.dict Parameter_) : Prop :=
  forall k p, dict.get d k = Some p -> name p = k.

(** The mapping of a store: the [dict] that the instance holds as [data],
    when it holds one. *)
Definition mapping (self : ParamDict) : option (dict.dict pyobj) :=
  match dict.get (__dict__ self) "data" with
  | Some (PDict d) => Some d
  | _ => None
  end.

(** The invariant of the store: every key of its mapping is the name of the
    parameter stored under it. *)
Definition store_keys_are_names (self : ParamDict) : Prop :=
  forall d k v,
    mapping self = Some d -> dict.get d k = Some v ->
    exists p, v = PParameter p /\ name p = k.

(** An operation on the store: an assignment [store[key] = value] or a
    change event. *)
Inductive store_op : Type :=
| SetItem (key : string) (value : pyobj)
| Event (msg : ParamEvent).

(** An operation on the plugin: an access to [param] or a call of
    [call_pull]. *)
Inductive plugin_op : Type :=
| Access
| Pull (force_pull : bool).

Section Runs.

Variable PullResponse : Type.
Variable remote : Remote PullResponse.

(** The store and the trace after one operation, whether or not the
    operation raised. *)
Definition run_op (op : store_op) (st : ParamDict * trace)
  : ParamDict * trace :=
  match op with
  | SetItem key value =>
      fst (__setitem__ remote written_call key value (fst st) (snd st))
  | Event msg => (fst (_event_handler msg (fst st)), snd st)
  end.

Definition run_ops (ops : list store_op) (st : ParamDict * trace)
  : ParamDict * trace :=
  fold_left (fun st op => run_op op st) ops st.

(** The plugin and the trace after one operation on the plugin, for the
    call [call] in [__setitem__], whether or not the operation raised. *)
Definition run_plugin_op (call : call_syntax) (op : plugin_op)
  (st : ParamPlugin * trace) : ParamPlugin * trace :=
  match op with
  | Access => fst (param remote call (fst st) (snd st))
  | Pull force_pull => fst (call_pull remote force_pull (fst st) (snd st))
  end.

Definition run_plugin_ops (call : call_syntax) (ops : list plugin_op)
  (st : ParamPlugin * trace) : ParamPlugin * trace :=
  fold_left (fun st op => run_plugin_op call op st) ops st.

End Runs.

Arguments run_op {PullResponse} remote op st.
Arguments run_ops {PullResponse} remote ops st.
Arguments run_plugin_op {PullResponse} remote call op st.
Arguments run_plugin_ops {PullResponse} remote call ops st.

(** ** Sample data *)

Definition nl : string := String "010" "".
Definition tab : string := String "009" "".

(** 1.5 as a binary64: 3 * 2^51 * 2^-52. *)
Definition one_and_a_half : Py.float := S754_finite false 6755399441055744 (-52).

(** A stream to read, given by its lines without their ends; nothing has
    been written to it. *)
Definition reading (lines : list string) : TextIO.TextIO :=
  {| TextIO.lines := map (fun line => Ok (line ++ nl)) lines;
     TextIO.written := "" |}.

Definition blank : TextIO.TextIO := reading [].

Definition noon : datetime.datetime :=
  {| datetime.year := 2021; datetime.month := 3; datetime.day := 4;
     datetime.hour := 12; datetime.minute := 0; datetime.second := 0 |}.

Definition FOO_3 : Parameter_ := {| name := "FOO"; value_ := VInt 3 |}.

Definition file_FOO_3 : ParamFile :=
  {| parameters := Some [("FOO", FOO_3)]; stamp := Some noon;
     tgt_system := 1; tgt_component := 1 |}.

Definition a_node : Node := {| node_id := "mavros" |}.
Definition set_client : Client := create_client SetParameters "param/set_parameters".
Definition pull_client : Client := create_client ParamPull "param/pull".

Definition a_plugin_ref : plugin_ref :=
  {| pm_node := a_node; pm_set_parameters := set_client |}.

Definition A_1 : Parameter_ := {| name := "A"; value_ := VInt 1 |}.
Definition B_2 : Parameter_ := {| name := "B"; value_ := VInt 2 |}.

(** A remote side whose services are always ready, whose pull service
    answers with the set [{B: 2}], and which announces [B -> 2] by a change
    event while a node waits for a reply. *)
Definition remote_B : Remote (dict.dict Parameter_) :=
  {| wait_ready := fun _ _ _ => true;
     list_reply := fun _ _ _ => [];
     get_reply := fun _ _ _ => [];
     set_reply := fun _ _ ps => map (fun _ => {| successful := true; reason := "" |}) ps;
     pull_reply := fun _ _ _ => [("B", B_2)];
     delivered := fun _ _ => [{| param_id := "B"; value := VInt 2 |}] |}.

(** A new plugin. *)
Definition plugin_0 : ParamPlugin :=
  ParamPlugin_new a_node
    (create_client ListParameters "param/list_parameters")
    (create_client GetParameters "param/get_parameters")
    set_client pull_client
    (create_client ParamSetV2 "param/set").

(** The call of [__setitem__] with its arguments in the one order that the
    grammar accepts. *)
Definition reordered_call : call_syntax :=
  [(None, E_value_list);
   (Some "node", E_pm_node);
   (Some "client", E_pm_set_parameters)].

(** An instance that has been given a mapping and a plugin from outside
    the class, by way of its [__dict__]. *)
Definition instance_A : ParamDict :=
  {| __dict__ := [("data", PDict [("A", PParameter A_1)]);
                  ("_pm", PPlugin a_plugin_ref)] |}.

(** The three lines that open a file in the tab-delimited format: a note
    with the time stamp, a note with the target, and the column labels. *)
Definition header_lines (self : ParamFile) (t : datetime.datetime) : list string :=
  [ ("# NOTE: " ++ datetime.strftime t) ++ nl;
    ("# Onboard parameters saved by mavparam for ("
       ++ Py.str_of_int (tgt_system self) ++ "."
       ++ Py.str_of_int (tgt_component self) ++ ")") ++ nl;
    "# MAV ID" ++ tab ++ "COMPONENT ID" ++ tab ++ "PARAM NAME" ++ tab
      ++ "VALUE" ++ tab ++ "(TYPE)" ++ nl ].

(** The specification's [render]: the text [save] writes to an empty
    stream; and its [parse]: the mapping [load] stores from a text. *)
Definition render (repr_float : Py.float -> string) (cls : ParamFileClass)
  (now : datetime.datetime) (self : ParamFile) : result string :=
  match save repr_float cls now (TextIO.open_text "") self with
  | ((_, file_), Ok _) => Ok (TextIO.written file_)
  | (_, Raise e) => Raise e
  end.

Definition parse (cls : ParamFileClass) (text : string)
  : result (option (dict.dict Parameter_)) :=
  match load cls (TextIO.open_text text) ParamFile_new with
  | (self, Ok _) => Ok (parameters self)
  | (_, Raise e) => Raise e
  end.

(** [parse(render(self))]. *)
Definition round_trip (repr_float : Py.float -> string) (cls : ParamFileClass)
  (now : datetime.datetime) (self : ParamFile)
  : result (option (dict.dict Parameter_)) :=
  match render repr_float cls now self with
  | Ok text => parse cls text
  | Raise e => Raise e
  end.

(** The client a helper ends up with: the one passed, or one made for the
    named node; [None] when neither is given (the assertion fails). *)
Definition resolved (srv : Service) (suffix : string)
  (node_name : option string) (client : option Client) : option Client :=
  match client with
  | Some c => Some c
  | None =>
      match node_name with
      | Some n => Some (create_client srv (n ++ "/" ++ suffix))
      | None => None
      end
  end.

(** What a remote call does about readiness, from the trace [tr] to the
    outcome [out], for the client [client] and the time limit [timeout]:
    it first waits for the service with that limit; it raises
    [ServiceWaitTimeout] exactly when the wait ends without the service
    being ready, and then sends no request; when the service is ready it
    sends one request and returns. *)
Definition readiness_contract {PullResponse A : Type}
  (remote : Remote PullResponse) (client : Client) (timeout : Q)
  (tr : trace) (out : trace * result A) : Prop :=
  (exists rest, fst out = (tr ++ Waited client timeout :: rest)%list)
  /\ (snd out = Raise ServiceWaitTimeout <-> wait_ready remote tr client timeout = false)
  /\ (wait_ready remote tr client timeout = false -> requests (fst out) = requests tr)
  /\ (wait_ready remote tr client timeout = true ->
      (exists a, snd out = Ok a)
      /\ exists req, requests (fst out) = (requests tr ++ [(client, req)])%list).

(** The local mapping of a plugin, when it has a store that has one. *)
Definition store_data (self : ParamPlugin) : option (dict.dict pyobj) :=
  match _parameters self with
  | Some d => mapping d
  | None => None
  end.

(** ** Further notions *)

(** What one item of the csv reader does to the parse loop: an error of the
    reader is passed on, a row goes through the body of the loop. *)
Definition item_outcome (cls : ParamFileClass) (item : result (list string))
  : result (option Parameter_) :=
  match item with
  | Ok data => row_body cls data
  | Raise e => Raise e
  end.

(** A numeric value: an [int] or a [float]. *)
Definition numeric (v : scalar) : bool :=
  match v with
  | VInt _ | VDouble _ => true
  | VNotSet | VBool _ | VStr _ => false
  end.

(** The names of a sequence in the order of their first occurrence, after
    the names [seen]. *)
Fixpoint first_occurrences (seen : list string) (names : list string)
  : list string :=
  match names with
  | [] => []
  | n :: rest =>
      if existsb (String.eqb n) seen then first_occurrences seen rest
      else n :: first_occurrences (seen ++ [n])%list rest
  end.

(** Two rows of the tab-delimited format that agree on the name and the
    value, whatever their target and type columns hold, none of them a
    comment. *)
Definition same_name_and_value (r1 r2 : list string) : bool :=
  match r1, r2 with
  | [a1; b1; n1; v1; t1], [a2; b2; n2; v2; t2] =>
      String.eqb n1 n2 && String.eqb v1 v2
      && negb (Py.startswith a1 "#") && negb (Py.startswith a2 "#")
  | _, _ => false
  end.

(** Every character of a text satisfies a test. *)
Fixpoint all_chars (test : ascii -> bool) (s : string) : bool :=
  match s with
  | EmptyString => true
  | String c rest => test c && all_chars test rest
  end.

(** A character that the tab-delimited format takes as part of a field:
    neither a tab nor a line end. *)
Definition plain_char (c : ascii) : bool :=
  negb (Ascii.eqb c "009") && negb (csv.is_newline c).

(** Some character of a text satisfies a test. *)
Fixpoint any_char (test : ascii -> bool) (s : string) : bool :=
  match s with
  | EmptyString => false
  | String c rest => test c || any_char test rest
  end.

(** The letters of [e], [inf], [nan] and [infinity], in lower case. *)
Definition numeral_letter (c : ascii) : bool :=
  existsb (Ascii.eqb c) ["e"; "i"; "n"; "f"; "a"; "t"; "y"]%char.

(** A character that no numeral holds: neither a digit, a sign, a point,
    an underscore or white space, nor a letter of [e], [inf], [nan] or
    [infinity] in either case. *)
Definition foreign_char (c : ascii) : bool :=
  negb (Py.isdigit c || Py.ISSPACE c
        || existsb (Ascii.eqb c) ["+"; "-"; "."; "_"]%char
        || numeral_letter (Py.lower c)).

(** * Properties *)

Local Open Scope list_scope.

(** ** Dictionaries *)

Module dict_facts.

Import dict.

Lemma get_set_same {V : Type} (d : dict V) (k : string) (v : V) :
  get (set d k v) k = Some v.
Proof.
  induction d as [|[k' v'] d IH]; simpl.
  - now rewrite String.eqb_refl.
  - destruct (String.eqb k k') eqn:E; simpl.
    + now rewrite String.eqb_refl.
    + now rewrite E.
Qed.

Lemma get_set_other {V : Type} (d : dict V) (k k' : string) (v : V) :
  k <> k' -> get (set d k v) k' = get d k'.
Proof.
  intros Hne.
  induction d as [|[k0 v0] d IH]; simpl.
  - destruct (String.eqb k' k) eqn:E; [|reflexivity].
    apply String.eqb_eq in E. congruence.
  - destruct (String.eqb k k0) eqn:E; simpl.
    + apply String.eqb_eq in E. subst k0.
      destruct (String.eqb k' k) eqn:E'; [|reflexivity].
      apply String.eqb_eq in E'. congruence.
    + now rewrite IH.
Qed.

Lemma in_keys_set {V : Type} (d : dict V) (k k' : string) (v : V) :
  In k' (keys (set d k v)) <-> k' = k \/ In k' (keys d).
Proof.
  unfold keys.
  induction d as [|[k0 v0] d IH]; simpl.
  - intuition.
  - destruct (String.eqb k k0) eqn:E; simpl.
    + apply String.eqb_eq in E. subst k0. intuition.
    + rewrite IH. intuition.
Qed.

Lemma NoDup_keys_set {V : Type} (d : dict V) (k : string) (v : V) :
  NoDup (keys d) -> NoDup (keys (set d k v)).
Proof.
  unfold keys.
  induction d as [|[k0 v0] d IH]; simpl; intros Hnd.
  - constructor; [intros [] | constructor].
  - inversion Hnd as [|? ? Hnotin Hnd']; subst.
    destruct (String.eqb k k0) eqn:E; simpl.
    + apply String.eqb_eq in E. subst k0. now constructor.
    + constructor; [|now apply IH].
      intros Hin. apply (in_keys_set d k k0 v) in Hin.
      destruct Hin as [Heq|Hin]; [|now apply Hnotin].
      subst k0. now rewrite String.eqb_refl in E.
Qed.

Lemma get_in_keys {V : Type} (d : dict V) (k : string) (v : V) :
  get d k = Some v -> In k (keys d).
Proof.
  unfold keys.
  induction d as [|[k0 v0] d IH]; simpl; [discriminate|].
  destruct (String.eqb k k0) eqn:E; intros H.
  - apply String.eqb_eq in E. now left.
  - right. now apply IH.
Qed.

Lemma in_keys_get {V : Type} (d : dict V) (k : string) :
  In k (keys d) -> exists v, get d k = Some v.
Proof.
  unfold keys.
  induction d as [|[k0 v0] d IH]; simpl; [intros []|].
  destruct (String.eqb k k0) eqn:E; intros H.
  - now exists v0.
  - destruct H as [H|H]; [|now apply IH].
    subst k0. now rewrite String.eqb_refl in E.
Qed.

Section OfItems.

Context {A V : Type} (key : A -> string) (val : A -> V).

Let add (d : dict V) (x : A) : dict V := set d (key x) (val x).

Lemma fold_keeps_other (items : list A) (d : dict V) (k : string) :
  forallb (fun x => negb (String.eqb (key x) k)) items = true ->
  get (fold_left add items d) k = get d k.
Proof.
  revert d.
  induction items as [|x items IH]; simpl; intros d H; [reflexivity|].
  apply andb_true_iff in H. destruct H as [Hx Hrest].
  rewrite IH by exact Hrest.
  apply get_set_other.
  apply negb_true_iff, String.eqb_neq in Hx. exact Hx.
Qed.

Lemma fold_NoDup (items : list A) (d : dict V) :
  NoDup (keys d) -> NoDup (keys (fold_left add items d)).
Proof.
  revert d.
  induction items as [|x items IH]; simpl; intros d H; [exact H|].
  apply IH. now apply NoDup_keys_set.
Qed.

Lemma fold_keeps_keys (items : list A) (d : dict V) (k : string) :
  In k (keys d) -> In k (keys (fold_left add items d)).
Proof.
  revert d.
  induction items as [|x items IH]; simpl; intros d H; [exact H|].
  apply IH. apply in_keys_set. now right.
Qed.

(** In a dictionary built from a sequence of items, the last item with a
    given key is the one found under it. *)
Lemma of_items_last (pre post : list A) (x : A) :
  forallb (fun y => negb (String.eqb (key y) (key x))) post = true ->
  get (of_items key val (pre ++ x :: post)) (key x) = Some (val x).
Proof.
  intros H. unfold of_items.
  rewrite fold_left_app. simpl.
  fold add. rewrite fold_keeps_other by exact H.
  apply get_set_same.
Qed.

Lemma of_items_NoDup (items : list A) :
  NoDup (keys (of_items key val items)).
Proof. apply fold_NoDup. constructor. Qed.

(** Every entry comes from an item, under the key of that item. *)
Lemma of_items_from_item (items : list A) (k : string) (v : V) :
  get (of_items key val items) k = Some v ->
  exists x, In x items /\ key x = k /\ val x = v.
Proof.
  unfold of_items.
  assert (G : forall d,
             get (fold_left add items d) k = Some v ->
             get d k = Some v \/ exists x, In x items /\ key x = k /\ val x = v).
  { induction items as [|y items IH]; simpl; intros d H; [now left|].
    destruct (IH _ H) as [Hd|[x [Hin Hx]]].
    - unfold add in Hd.
      destruct (string_dec (key y) k) as [E|E].
      + rewrite E, get_set_same in Hd. injection Hd as Hv.
        right. exists y. intuition.
      + rewrite get_set_other in Hd by exact E. now left.
    - right. exists x. intuition. }
  intros H. destruct (G [] H) as [Hd|Hx]; [discriminate|exact Hx].
Qed.

End OfItems.

End dict_facts.

(** ** Value inference *)

(** 1.5 is three halves, computed in binary64. *)
Lemma one_and_a_half_is_three_halves :
  SFdiv Py.prec Py.emax (binary_normalize Py.prec Py.emax 3 0 false)
    (binary_normalize Py.prec Py.emax 2 0 false) = one_and_a_half.
Proof. reflexivity. Qed.

(** *** The decimal text of an integer *)

Lemma uint_text_no_point (u : Decimal.uint) :
  Py.contains "." (NilEmpty.string_of_uint u) = false.
Proof. induction u; simpl; auto. Qed.

Lemma uint_text_length (u : Decimal.uint) :
  String.length (NilEmpty.string_of_uint u) = Decimal.nb_digits u.
Proof. induction u; simpl; congruence. Qed.

Lemma uint_text_lstrip (u : Decimal.uint) :
  Py.lstrip_with Py.ISSPACE (NilEmpty.string_of_uint u) = NilEmpty.string_of_uint u.
Proof. destruct u; reflexivity. Qed.

Lemma uint_text_rstrip (u : Decimal.uint) :
  Py.rstrip_with Py.ISSPACE (NilEmpty.string_of_uint u) = NilEmpty.string_of_uint u.
Proof.
  induction u; [reflexivity|..];
    cbn [NilEmpty.string_of_uint Py.rstrip_with]; rewrite IHu;
    destruct (NilEmpty.string_of_uint u); reflexivity.
Qed.

Lemma uint_text_sign (u : Decimal.uint) :
  Py.take_sign (NilEmpty.string_of_uint u) = (false, NilEmpty.string_of_uint u).
Proof. destruct u; reflexivity. Qed.

Lemma uint_text_underscores_ok (u : Decimal.uint) (prev : bool) :
  Py.underscores_ok prev (NilEmpty.string_of_uint u) = true.
Proof. revert prev. induction u; intros prev; simpl; auto. Qed.

Lemma uint_text_drop_underscores (u : Decimal.uint) :
  Py.drop_underscores (NilEmpty.string_of_uint u) = NilEmpty.string_of_uint u.
Proof. induction u; simpl; congruence. Qed.

Lemma span_digits_uint_pos (u : Decimal.uint) (p : positive) (n : nat) :
  Py.span_digits (Zpos p) n (NilEmpty.string_of_uint u)
  = (Zpos (Pos.of_uint_acc u p), (n + Decimal.nb_digits u)%nat, ""%string).
Proof.
  revert p n.
  induction u; intros p n;
    cbn [NilEmpty.string_of_uint Py.span_digits Decimal.nb_digits Pos.of_uint_acc];
    [now rewrite Nat.add_0_r|..];
    match goal with
    | |- context [Py.isdigit ?c] => change (Py.isdigit c) with true; cbv iota
    end;
    match goal with
    | |- context [Py.digit_value ?c] =>
        let v := eval vm_compute in (Py.digit_value c) in
        change (Py.digit_value c) with v
    end;
    match goal with
    | |- Py.span_digits ?a _ _ = (Zpos (Pos.of_uint_acc _ ?q), _, _) =>
        replace a with (Zpos q) by lia
    end;
    rewrite IHu; now rewrite Nat.add_succ_r.
Qed.

Lemma span_digits_uint (u : Decimal.uint) (n : nat) :
  Py.span_digits 0 n (NilEmpty.string_of_uint u)
  = (Z.of_N (Pos.of_uint u), (n + Decimal.nb_digits u)%nat, ""%string).
Proof.
  revert n.
  induction u; intros n;
    cbn [NilEmpty.string_of_uint Py.span_digits Decimal.nb_digits Pos.of_uint];
    [now rewrite Nat.add_0_r|..];
    match goal with
    | |- context [Py.isdigit ?c] => change (Py.isdigit c) with true; cbv iota
    end;
    [change (10 * 0 + Py.digit_value "0") with 0; rewrite IHu;
     now rewrite Nat.add_succ_r|..];
    match goal with
    | |- Py.span_digits ?a _ _ = (Z.of_N (N.pos (Pos.of_uint_acc _ ?q)), _, _) =>
        change a with (Zpos q)
    end;
    rewrite span_digits_uint_pos; now rewrite Nat.add_succ_r.
Qed.

(** What [int] makes of the digits of a positive number, with or without
    a minus before them. *)
Lemma int_of_string_uint (p : positive) :
  Py.int_of_string (NilEmpty.string_of_uint (Pos.to_uint p))
  = if (Py.int_max_str_digits <? Decimal.nb_digits (Pos.to_uint p))%nat
    then None else Some (Zpos p).
Proof.
  unfold Py.int_of_string, Py.strip_with.
  rewrite uint_text_lstrip, uint_text_rstrip, uint_text_sign.
  rewrite uint_text_underscores_ok, uint_text_drop_underscores, span_digits_uint.
  rewrite DecimalPos.Unsigned.of_to. cbn [Nat.add].
  pose proof (DecimalPos.Unsigned.to_uint_nonnil p) as Hnil.
  destruct (Pos.to_uint p) as [|u|u|u|u|u|u|u|u|u|u]; [now elim Hnil|..];
    reflexivity.
Qed.

Lemma int_of_string_minus_uint (p : positive) :
  Py.int_of_string (String "-" (NilEmpty.string_of_uint (Pos.to_uint p)))
  = if (Py.int_max_str_digits <? Decimal.nb_digits (Pos.to_uint p))%nat
    then None else Some (Zneg p).
Proof.
  unfold Py.int_of_string, Py.strip_with.
  change (Py.lstrip_with Py.ISSPACE (String "-" ?x)) with (String "-" x).
  assert (E : Py.rstrip_with Py.ISSPACE
                (String "-" (NilEmpty.string_of_uint (Pos.to_uint p)))
              = String "-" (NilEmpty.string_of_uint (Pos.to_uint p))).
  { cbn [Py.rstrip_with]. rewrite uint_text_rstrip.
    destruct (NilEmpty.string_of_uint (Pos.to_uint p)); reflexivity. }
  rewrite E. cbn [Py.take_sign].
  rewrite uint_text_underscores_ok, uint_text_drop_underscores, span_digits_uint.
  rewrite DecimalPos.Unsigned.of_to. cbn [Nat.add].
  pose proof (DecimalPos.Unsigned.to_uint_nonnil p) as Hnil.
  destruct (Pos.to_uint p) as [|u|u|u|u|u|u|u|u|u|u]; [now elim Hnil|..];
    reflexivity.
Qed.

Lemma str_of_int_text (z : Z) :
  Py.str_of_int z
  = match z with
    | Z0 => "0"%string
    | Zpos p => NilEmpty.string_of_uint (Pos.to_uint p)
    | Zneg p => String "-" (NilEmpty.string_of_uint (Pos.to_uint p))
    end.
Proof.
  destruct z as [|p|p]; [reflexivity|..];
    unfold Py.str_of_int; cbn [Z.to_int NilZero.string_of_int];
    pose proof (DecimalPos.Unsigned.to_uint_nonnil p) as Hnil;
    destruct (Pos.to_uint p); try reflexivity; now elim Hnil.
Qed.

(** [to_numeric] on the decimal text of an integer: the integer, unless it
    has more digits than [str] and [int] convert. *)
Lemma to_numeric_str_of_int (z : Z) :
  to_numeric (Py.str_of_int z)
  = match Py.str z with
    | Ok _ => Ok (VInt z)
    | Raise _ => Raise ValueError
    end.
Proof.
  unfold Py.str, to_numeric. rewrite !str_of_int_text.
  destruct z as [|p|p]; cbn [Z.abs].
  - reflexivity.
  - rewrite uint_text_no_point, int_of_string_uint, uint_text_length.
    now destruct (_ <? _)%nat.
  - cbn [Py.contains]. change (Ascii.eqb "." "-") with false. cbn [orb].
    rewrite uint_text_no_point, int_of_string_minus_uint, uint_text_length.
    now destruct (_ <? _)%nat.
Qed.

Lemma str_text (z : Z) (text : string) :
  Py.str z = Ok text -> text = Py.str_of_int z.
Proof. unfold Py.str. destruct (_ <? _)%nat; [discriminate|]. now intros [= <-]. Qed.

Lemma str_error (z : Z) (e : exn) : Py.str z = Raise e -> e = ValueError.
Proof. unfold Py.str. destruct (_ <? _)%nat; [|discriminate]. now intros [= <-]. Qed.

(** *** Tokens that hold a foreign character *)

Section Foreign.

Variable P : ascii -> bool.

Lemma any_char_lstrip (sp : ascii -> bool) (s : string) :
  (forall c, P c = true -> sp c = false) ->
  any_char P (Py.lstrip_with sp s) = any_char P s.
Proof.
  intros H. induction s as [|c s IH]; [reflexivity|].
  cbn [Py.lstrip_with]. destruct (sp c) eqn:E; [|reflexivity].
  cbn [any_char]. destruct (P c) eqn:Pc; [|exact IH].
  rewrite (H c Pc) in E. discriminate.
Qed.

Lemma any_char_rstrip (sp : ascii -> bool) (s : string) :
  (forall c, P c = true -> sp c = false) ->
  any_char P (Py.rstrip_with sp s) = any_char P s.
Proof.
  intros H. induction s as [|c s IH]; [reflexivity|].
  cbn [Py.rstrip_with any_char]. rewrite <- IH.
  destruct (Py.rstrip_with sp s) as [|d r].
  - destruct (sp c) eqn:E; [|reflexivity].
    cbn [any_char]. destruct (P c) eqn:Pc; [|reflexivity].
    rewrite (H c Pc) in E. discriminate.
  - reflexivity.
Qed.

Lemma any_char_drop_underscores (s : string) :
  P "_" = false -> any_char P (Py.drop_underscores s) = any_char P s.
Proof.
  intros H. induction s as [|c s IH]; [reflexivity|].
  cbn [Py.drop_underscores any_char].
  destruct (Ascii.eqb_spec c "_") as [->|_]; cbn [any_char]; rewrite IH; [|reflexivity].
  now rewrite H.
Qed.

Lemma any_char_span_digits (s : string) (acc : Z) (n : nat) :
  (forall c, P c = true -> Py.isdigit c = false) ->
  any_char P (snd (Py.span_digits acc n s)) = any_char P s.
Proof.
  intros H. revert acc n. induction s as [|c s IH]; intros acc n; [reflexivity|].
  cbn [Py.span_digits]. destruct (Py.isdigit c) eqn:E; [|reflexivity].
  rewrite IH. cbn [any_char]. destruct (P c) eqn:Pc; [|reflexivity].
  rewrite (H c Pc) in E. discriminate.
Qed.

End Foreign.

Lemma take_sign_cons (c : ascii) (s : string) :
  Py.take_sign (String c s)
  = if Ascii.eqb c "-" then (true, s)
    else if Ascii.eqb c "+" then (false, s)
    else (false, String c s).
Proof. destruct c as [[] [] [] [] [] [] [] []]; reflexivity. Qed.

Lemma after_point {A : Type} (F : string -> A) (G : A) (c : ascii) (s : string) :
  match String c s with
  | String "." rest => F rest
  | _ => G
  end
  = if Ascii.eqb c "." then F s else G.
Proof. destruct c as [[] [] [] [] [] [] [] []]; reflexivity. Qed.

Lemma foreign_char_spec (c : ascii) :
  foreign_char c = true ->
  Py.isdigit c = false /\ Py.ISSPACE c = false
  /\ Ascii.eqb c "+" = false /\ Ascii.eqb c "-" = false
  /\ Ascii.eqb c "." = false /\ Ascii.eqb c "_" = false
  /\ numeral_letter (Py.lower c) = false.
Proof.
  unfold foreign_char. cbn [existsb]. intros H. apply negb_true_iff in H.
  repeat rewrite orb_false_iff in H. intuition.
Qed.

Lemma any_char_take_sign (s : string) :
  any_char foreign_char (snd (Py.take_sign s)) = any_char foreign_char s.
Proof.
  destruct s as [|c s]; [reflexivity|]. rewrite take_sign_cons.
  destruct (Ascii.eqb_spec c "-") as [->|_]; [reflexivity|].
  destruct (Ascii.eqb_spec c "+") as [->|_]; reflexivity.
Qed.

Lemma any_char_strip (s : string) :
  any_char foreign_char (Py.strip_with Py.ISSPACE s) = any_char foreign_char s.
Proof.
  unfold Py.strip_with.
  rewrite any_char_rstrip, any_char_lstrip; [reflexivity| |];
    intros c Hc; now apply foreign_char_spec in Hc.
Qed.

Lemma any_char_lowercase (s : string) :
  any_char foreign_char s = true ->
  any_char (fun c => negb (numeral_letter c)) (Py.lowercase s) = true.
Proof.
  induction s as [|c s IH]; [discriminate|].
  cbn [any_char Py.lowercase]. intros H. apply orb_true_iff in H.
  apply orb_true_iff. destruct H as [H|H]; [left|right; now apply IH].
  apply foreign_char_spec in H. now rewrite (proj2 (proj2 (proj2 (proj2 (proj2 (proj2 H)))))).
Qed.

(** [int] refuses a token that holds a foreign character. *)
Lemma int_of_string_foreign (x : string) :
  any_char foreign_char x = true -> Py.int_of_string x = None.
Proof.
  intros H. unfold Py.int_of_string.
  rewrite <- any_char_strip, <- any_char_take_sign in H.
  destruct (Py.take_sign (Py.strip_with Py.ISSPACE x)) as [neg body].
  cbn [snd] in H.
  destruct (Py.underscores_ok false body); [|reflexivity].
  rewrite <- (any_char_drop_underscores foreign_char) in H by reflexivity.
  rewrite <- (any_char_span_digits foreign_char _ 0 0) in H
    by (intros c Hc; now apply foreign_char_spec in Hc).
  destruct (Py.span_digits 0 0 (Py.drop_underscores body)) as [[v n] rest].
  cbn [snd] in H. destruct n; [reflexivity|].
  destruct rest; [discriminate|reflexivity].
Qed.

Lemma take_exponent_foreign (s : string) :
  any_char foreign_char s = true ->
  match Py.take_exponent s with
  | Some (_, EmptyString) => False
  | _ => True
  end.
Proof.
  intros H. destruct s as [|c s]; [discriminate|].
  cbn [Py.take_exponent].
  destruct (Ascii.eqb (Py.lower c) "e") eqn:E; [|exact I].
  assert (Hs : any_char foreign_char s = true).
  { cbn [any_char] in H. apply orb_true_iff in H. destruct H as [H|H]; [|exact H].
    apply foreign_char_spec in H.
    destruct H as [_ [_ [_ [_ [_ [_ H]]]]]].
    apply Ascii.eqb_eq in E. rewrite E in H. discriminate. }
  rewrite <- any_char_take_sign in Hs.
  destruct (Py.take_sign s) as [eneg digits]. cbn [snd] in Hs.
  rewrite <- (any_char_span_digits foreign_char _ 0 0) in Hs
    by (intros d Hd; now apply foreign_char_spec in Hd).
  destruct (Py.span_digits 0 0 digits) as [[v n] tail]. cbn [snd] in Hs.
  destruct n; [exact I|]. destruct tail; [discriminate|exact I].
Qed.

(** [float] refuses a token that holds a foreign character. *)
Lemma float_of_string_foreign (x : string) :
  any_char foreign_char x = true -> Py.float_of_string x = None.
Proof.
  intros H. unfold Py.float_of_string.
  rewrite <- any_char_strip, <- any_char_take_sign in H.
  destruct (Py.take_sign (Py.strip_with Py.ISSPACE x)) as [neg body].
  cbn [snd] in H.
  pose proof (any_char_lowercase body H) as Hlow.
  assert (E : forall t : string,
             any_char (fun c => negb (numeral_letter c)) t = false ->
             String.eqb (Py.lowercase body) t = false).
  { intros t Ht. destruct (String.eqb_spec (Py.lowercase body) t) as [Heq|_];
      [|reflexivity]. rewrite Heq, Ht in Hlow. discriminate. }
  rewrite !E by reflexivity. cbn [orb].
  destruct (Py.underscores_ok false body); [|reflexivity].
  rewrite <- (any_char_drop_underscores foreign_char) in H by reflexivity.
  rewrite <- (any_char_span_digits foreign_char _ 0 0) in H
    by (intros c Hc; now apply foreign_char_spec in Hc).
  destruct (Py.span_digits 0 0 (Py.drop_underscores body)) as [[ip ni] after_int].
  cbn [snd] in H.
  destruct after_int as [|c rest]; [discriminate|].
  rewrite (after_point
             (fun rest0 =>
                let '(m, n, tail) := Py.span_digits ip ni rest0 in
                (m, (n - ni)%nat, tail))
             (ip, O, String c rest) c rest).
  destruct (Ascii.eqb_spec c ".") as [->|_].
  - change (any_char foreign_char (String "." rest))
      with (any_char foreign_char rest) in H.
    rewrite <- (any_char_span_digits foreign_char _ ip ni) in H
      by (intros d Hd; now apply foreign_char_spec in Hd).
    destruct (Py.span_digits ip ni rest) as [[m n] tail]. cbn [snd] in H.
    destruct (ni + (n - ni))%nat; [reflexivity|].
    pose proof (take_exponent_foreign tail H) as Ht.
    destruct (Py.take_exponent tail) as [[e [|d t]]|]; [elim Ht|reflexivity|reflexivity].
  - destruct (ni + 0)%nat; [reflexivity|].
    pose proof (take_exponent_foreign (String c rest) H) as Ht.
    destruct (Py.take_exponent (String c rest)) as [[e [|d t]]|];
      [elim Ht|reflexivity|reflexivity].
Qed.


(** The choice is made on the decimal point alone: a token that [float]
    would read but that holds no point goes to [int] and is refused. *)
Example exponent_without_point :
  Py.float_of_string "1e5" = Some (S754_finite false 6871947673600000 (-36))
  /\ to_numeric "1e5" = Raise ValueError.
Proof. split; reflexivity. Qed.

(** ** The parse loop *)

Lemma load_unfold (cls : ParamFileClass) (file_ : TextIO.TextIO) (self : ParamFile) :
  load cls file_ self =
  match ended (_parse_param_file cls file_) with
  | Ok _ =>
      (set_parameters_attr self
         (dict.of_items name (fun p => p) (yielded (_parse_param_file cls file_))),
       Ok tt)
  | Raise e => (self, Raise e)
  end.
Proof. destruct cls; reflexivity. Qed.

Lemma parse_unfold (cls : ParamFileClass) (file_ : TextIO.TextIO) :
  _parse_param_file cls file_ =
  for_rows (row_body cls) (csv.reader (TextIO.lines file_) (CSVDialect cls)).
Proof. destruct cls; reflexivity. Qed.

(** Rows that the loop gets through contribute what they yield and leave the
    rest of the run as it is. *)
Lemma for_rows_accepted (cls : ParamFileClass) (pre : list (list string))
  (rest : list (result (list string))) :
  forallb (row_accepted cls) pre = true ->
  for_rows (row_body cls) (map Ok pre ++ rest) =
  {| yielded := flat_map (row_yield cls) pre ++ yielded (for_rows (row_body cls) rest);
     ended := ended (for_rows (row_body cls) rest) |}.
Proof.
  induction pre as [|data pre IH]; simpl; intros H.
  - now destruct (for_rows (row_body cls) rest).
  - apply andb_true_iff in H. destruct H as [Hd Hpre].
    unfold row_accepted in Hd. unfold row_yield.
    destruct (row_body cls data) as [[p|]|e]; try discriminate.
    + rewrite IH by exact Hpre. reflexivity.
    + rewrite IH by exact Hpre. reflexivity.
Qed.

(** A row with no field stops every variant with [IndexError]: the comment
    test reads [data[0]] before the fields are counted. *)
Lemma row_body_no_field (cls : ParamFileClass) :
  row_body cls [] = Raise IndexError.
Proof. destruct cls; reflexivity. Qed.

(** A row with a first field that is no comment mark and a wrong number of
    fields stops every variant with [ValueError]. *)
Lemma row_body_wrong_count (cls : ParamFileClass) (data : list string) :
  data <> [] ->
  is_comment data = false ->
  List.length data <> field_count cls ->
  row_body cls data = Raise ValueError.
Proof.
  intros Hne Hc Hlen.
  destruct data as [|d0 data]; [congruence|].
  unfold is_comment in Hc.
  assert (Hcount : (List.length (d0 :: data) =? field_count cls)%nat = false)
    by now apply Nat.eqb_neq.
  destruct cls; unfold row_body, MavProxyParam.row_body, QGroundControlParam.row_body;
    unfold field_count in Hcount;
    cbn [Py.getitem nth_error]; rewrite Hc, Hcount; reflexivity.
Qed.

(** When [load] raises, the object is left as it was: nothing of what the
    rows before the failure yielded is kept. *)
Lemma load_raise_keeps_self (cls : ParamFileClass) (file_ : TextIO.TextIO)
  (self : ParamFile) (e : exn) :
  snd (load cls file_ self) = Raise e -> fst (load cls file_ self) = self.
Proof.
  rewrite load_unfold.
  destruct (ended (_parse_param_file cls file_)); simpl; [discriminate|reflexivity].
Qed.

(** The first row that the loop does not get through decides the outcome:
    when it has a field, is no comment and has the wrong number of fields,
    [load] raises [ValueError] and leaves the object as it was. *)
Lemma load_wrong_count_ValueError (cls : ParamFileClass) (file_ : TextIO.TextIO)
  (self : ParamFile) (pre : list (list string)) (data : list string)
  (post : list (result (list string))) :
  csv.reader (TextIO.lines file_) (CSVDialect cls) = map Ok pre ++ Ok data :: post ->
  forallb (row_accepted cls) pre = true ->
  data <> [] ->
  is_comment data = false ->
  List.length data <> field_count cls ->
  load cls file_ self = (self, Raise ValueError).
Proof.
  intros Hrows Hpre Hne Hc Hlen.
  rewrite load_unfold, parse_unfold, Hrows, for_rows_accepted by exact Hpre.
  simpl. rewrite (row_body_wrong_count cls data Hne Hc Hlen). reflexivity.
Qed.

(** [load] succeeds exactly when the loop gets through every row. *)
Lemma load_succeeds_iff (cls : ParamFileClass) (file_ : TextIO.TextIO)
  (self : ParamFile) (rows : list (list string)) :
  rows_of cls file_ rows ->
  snd (load cls file_ self) = Ok tt <-> forallb (row_accepted cls) rows = true.
Proof.
  intros Hrows. unfold rows_of in Hrows.
  rewrite load_unfold, parse_unfold, Hrows. clear Hrows.
  assert (G : ended (for_rows (row_body cls) (map Ok rows)) = Ok tt
              <-> forallb (row_accepted cls) rows = true).
  { induction rows as [|data rows IH]; simpl; [tauto|].
    unfold row_accepted at 1.
    destruct (row_body cls data) as [[p|]|e]; simpl.
    - exact IH.
    - exact IH.
    - split; discriminate. }
  destruct (ended (for_rows (row_body cls) (map Ok rows))) as [[]|e]; simpl.
  - tauto.
  - split; [discriminate|]. intros H. apply G in H. discriminate H.
Qed.

(** A text and its lines: [A 1], a line end, and a blank line. *)
Example text_with_blank_line :
  TextIO.open_text ("A 1" ++ nl ++ nl)%string = reading ["A 1"; ""]%string
  /\ TextIO.open_text ("A 1" ++ String "013" nl ++ String "013" nl)%string
     = reading ["A 1"; ""]%string.
Proof. split; reflexivity. Qed.

(** ** Duplicate names *)

(** C9, as stated, fails: two valid data rows with the same name do not
    make [load] succeed when another row of the text is malformed.  Here
    the rows [A 1] and [A 2] are followed by a row with one field. *)
Lemma duplicate_names_then_bad_row :
  row_body MavProxy ["A"; "1"]%string = Ok (Some A_1)
  /\ row_body MavProxy ["A"; "2"]%string
     = Ok (Some {| name := "A"; value_ := VInt 2 |})
  /\ csv.reader (TextIO.lines (reading ["A 1"; "A 2"; "B"]%string))
       (CSVDialect MavProxy)
     = [Ok ["A"; "1"]%string; Ok ["A"; "2"]%string; Ok ["B"%string]]
  /\ load MavProxy (reading ["A 1"; "A 2"; "B"]%string) ParamFile_new
     = (ParamFile_new, Raise ValueError).
Proof. repeat split; reflexivity. Qed.

(** C9, amended.  Take an input whose rows are all comments or valid data
    rows, and a data row [data] for the parameter [p] after which no row
    carries the name of [p] again (the rows before it may carry it any
    number of times).  Then [load] succeeds for each of the three classes,
    the mapping it stores has exactly one entry for that name, and the
    entry is [p]: the last row wins. *)
Theorem load_duplicate_names_last_wins :
  forall (cls : ParamFileClass) (file_ : TextIO.TextIO) (self : ParamFile)
         (pre post : list (list string)) (data : list string) (p : Parameter_),
    rows_of cls file_ (pre ++ data :: post) ->
    forallb (row_accepted cls) (pre ++ data :: post) = true ->
    row_body cls data = Ok (Some p) ->
    forallb (fun d => negb (carries cls (name p) d)) post = true ->
    exists params : dict.dict Parameter_,
      load cls file_ self = (set_parameters_attr self params, Ok tt) /\
      dict.get params (name p) = Some p /\
      count_occ string_dec (dict.keys params) (name p) = 1%nat.
Proof.
  intros cls file_ self pre post data p Hrows Hacc Hdata Hpost.
  exists (dict.of_items name (fun q => q)
            (flat_map (row_yield cls) (pre ++ data :: post))).
  assert (Hparse : _parse_param_file cls file_ =
                   {| yielded := flat_map (row_yield cls) (pre ++ data :: post);
                      ended := Ok tt |}).
  { rewrite parse_unfold. unfold rows_of in Hrows. rewrite Hrows.
    rewrite <- (app_nil_r (map Ok (pre ++ data :: post))).
    rewrite for_rows_accepted by exact Hacc.
    simpl. now rewrite app_nil_r. }
  assert (Hget : dict.get
                   (dict.of_items name (fun q => q)
                      (flat_map (row_yield cls) (pre ++ data :: post)))
                   (name p) = Some p).
  { rewrite flat_map_app. simpl.
    unfold row_yield at 2. rewrite Hdata. simpl.
    apply (dict_facts.of_items_last name (fun q => q)).
    clear - Hpost.
    induction post as [|d post IH]; simpl; [reflexivity|].
    simpl in Hpost. apply andb_true_iff in Hpost. destruct Hpost as [Hd Hrest].
    rewrite forallb_app, IH by exact Hrest.
    rewrite andb_true_r.
    unfold carries in Hd. apply negb_true_iff in Hd.
    apply forallb_forall. intros q Hq. apply negb_true_iff.
    destruct (String.eqb (name q) (name p)) eqn:E; [|reflexivity].
    rewrite <- Hd. symmetry. apply existsb_exists. now exists q. }
  split; [|split].
  - rewrite load_unfold, Hparse. reflexivity.
  - exact Hget.
  - apply NoDup_count_occ'.
    + apply dict_facts.of_items_NoDup.
    + eapply dict_facts.get_in_keys. exact Hget.
Qed.

(** The theorem at the text [A 1], [B 2], [A 3] in the space-delimited
    format: the mapping holds [A] once, with the value 3. *)
Lemma load_duplicate_names_last_wins_witness :
  exists params : dict.dict Parameter_,
    load MavProxy (reading ["A 1"; "B 2"; "A 3"]%string) ParamFile_new
    = (set_parameters_attr ParamFile_new params, Ok tt) /\
    dict.get params "A" = Some {| name := "A"; value_ := VInt 3 |} /\
    count_occ string_dec (dict.keys params) "A" = 1%nat.
Proof.
  apply (load_duplicate_names_last_wins MavProxy
           (reading ["A 1"; "B 2"; "A 3"]%string) ParamFile_new
           [["A"; "1"]; ["B"; "2"]]%string [] ["A"; "3"]%string
           {| name := "A"; value_ := VInt 3 |});
    reflexivity.
Defined.

(** The same text read by the other two classes, each in its own layout. *)
Example duplicate_names_in_each_format :
  load MavProxy (reading ["A 1"; "B 2"; "A 3"]%string) ParamFile_new
  = (set_parameters_attr ParamFile_new
       [("A", {| name := "A"; value_ := VInt 3 |}); ("B", B_2)]%string, Ok tt)
  /\ load MissionPlanner (reading ["A,1"; "B,2"; "A,3"]%string) ParamFile_new
  = (set_parameters_attr ParamFile_new
       [("A", {| name := "A"; value_ := VInt 3 |}); ("B", B_2)]%string, Ok tt)
  /\ load QGroundControl
       (reading [("1" ++ tab ++ "1" ++ tab ++ "A" ++ tab ++ "1" ++ tab ++ "6")%string;
                 ("1" ++ tab ++ "1" ++ tab ++ "A" ++ tab ++ "3" ++ tab ++ "6")%string])
       ParamFile_new
  = (set_parameters_attr ParamFile_new
       [("A", {| name := "A"; value_ := VInt 3 |})]%string, Ok tt).
Proof. repeat split; reflexivity. Qed.

(** ** Rows with no field *)

(** C10, as stated, fails: a text can hold a row with no field and yet be
    refused with [ValueError], because an earlier row stops the parse.  Here
    the first row has three fields and the second is blank. *)
Lemma zero_field_row_after_bad_row :
  In (Ok []) (csv.reader (TextIO.lines (reading ["A 1 2"; ""]%string))
                (CSVDialect MavProxy))
  /\ load MavProxy (reading ["A 1 2"; ""]%string) ParamFile_new
     = (ParamFile_new, Raise ValueError)
  /\ ended (_parse_param_file MavProxy (reading ["A 1 2"; ""]%string))
     = Raise ValueError.
Proof.
  split; [|split]; try reflexivity.
  right. left. reflexivity.
Qed.

(** C10, amended.  When the rows before the first row with no field are all
    comments or valid data rows, the parse of each of the three classes
    raises [IndexError], not [ValueError]: [row_body] reads [data[0]] before
    it counts the fields.  [load] passes the error on and leaves the object
    as it was. *)
Theorem zero_field_row_IndexError :
  forall (cls : ParamFileClass) (file_ : TextIO.TextIO) (self : ParamFile)
         (pre : list (list string)) (post : list (result (list string))),
    csv.reader (TextIO.lines file_) (CSVDialect cls) = map Ok pre ++ Ok [] :: post ->
    forallb (row_accepted cls) pre = true ->
    row_body cls [] = Raise IndexError /\
    ended (_parse_param_file cls file_) = Raise IndexError /\
    load cls file_ self = (self, Raise IndexError).
Proof.
  intros cls file_ self pre post Hrows Hpre.
  assert (Hend : ended (_parse_param_file cls file_) = Raise IndexError).
  { rewrite parse_unfold, Hrows, for_rows_accepted by exact Hpre.
    simpl. now rewrite row_body_no_field. }
  split; [apply row_body_no_field|split; [exact Hend|]].
  rewrite load_unfold, Hend. reflexivity.
Qed.

(** The theorem at a comment, a data row and a blank line, in the
    tab-delimited format. *)
Lemma zero_field_row_IndexError_witness :
  row_body QGroundControl [] = Raise IndexError /\
  ended (_parse_param_file QGroundControl
           (reading ["# NOTE"%string;
                     ("1" ++ tab ++ "1" ++ tab ++ "FOO" ++ tab ++ "3" ++ tab ++ "6")%string;
                     ""%string]))
  = Raise IndexError /\
  load QGroundControl
    (reading ["# NOTE"%string;
              ("1" ++ tab ++ "1" ++ tab ++ "FOO" ++ tab ++ "3" ++ tab ++ "6")%string;
              ""%string]) file_FOO_3
  = (file_FOO_3, Raise IndexError).
Proof.
  apply (zero_field_row_IndexError QGroundControl
           (reading ["# NOTE"%string;
                     ("1" ++ tab ++ "1" ++ tab ++ "FOO" ++ tab ++ "3" ++ tab ++ "6")%string;
                     ""%string]) file_FOO_3
           [["# NOTE"]; ["1"; "1"; "FOO"; "3"; "6"]]%string []);
    reflexivity.
Defined.

(** ** Rows with a wrong number of fields *)

(** C5 at a blank line.  A blank line is a row that is no comment and has
    not the number of fields its class asks for, yet each class raises
    [IndexError] on it, where the specification has FormatError
    ([ValueError]); the object stays as it was, the parameter of the row
    before is not kept. *)
Theorem blank_line_raises_IndexError :
  List.length (@nil string) <> field_count MavProxy
  /\ is_comment [] = false
  /\ csv.reader (TextIO.lines (reading ["A 1"; ""]%string)) (CSVDialect MavProxy)
     = [Ok ["A"; "1"]%string; Ok []]
  /\ load MavProxy (reading ["A 1"; ""]%string) file_FOO_3
     = (file_FOO_3, Raise IndexError)
  /\ load MissionPlanner (reading ["A,1"; ""]%string) file_FOO_3
     = (file_FOO_3, Raise IndexError)
  /\ load QGroundControl
       (reading [("1" ++ tab ++ "1" ++ tab ++ "A" ++ tab ++ "1" ++ tab ++ "6")%string;
                 ""%string]) file_FOO_3
     = (file_FOO_3, Raise IndexError).
Proof. repeat split; try reflexivity. discriminate. Qed.

(** ** Saving *)

(** Looking up [name] on a key of the mapping fails: the loop variable of
    [for p in self.parameters] is a [str]. *)
Lemma key_has_no_name (k : string) : attr_name (OStr k) = Raise AttributeError.
Proof. reflexivity. Qed.

(** C1.  [save] of the space- and comma-delimited classes always raises
    [AttributeError], at [file_.writerow], and writes nothing: the stream
    is left as it was and only the time stamp of the object is filled in.
    No text is rendered, so [parse(render(x))] is that error for every
    object [x], never the parameters of [x]. *)
Theorem save_two_fields_raises_AttributeError :
  forall (repr_float : Py.float -> string) (now : datetime.datetime)
         (file_ : TextIO.TextIO) (self : ParamFile),
    save repr_float MavProxy now file_ self
    = ((fst (default_stamp now self), file_), Raise AttributeError)
    /\ save repr_float MissionPlanner now file_ self
       = ((fst (default_stamp now self), file_), Raise AttributeError)
    /\ round_trip repr_float MavProxy now self = Raise AttributeError
    /\ round_trip repr_float MissionPlanner now self = Raise AttributeError.
Proof.
  intros repr_float now file_ self.
  unfold round_trip, render, save, MavProxyParam.save.
  destruct (default_stamp now self) as [self' t].
  repeat split; reflexivity.
Qed.

(** Were the header row handed to the csv writer, the space-delimited
    dialect could not write it: the row holds the delimiter and the dialect
    has no escape character. *)
Lemma space_header_needs_escape (repr_float : Py.float -> string)
  (t : datetime.datetime) :
  csv.writerow repr_float MavProxyParam.CSVDialect
    [csv.CStr ("#NOTE: " ++ datetime.strftime t)%string] = Raise CsvError.
Proof. reflexivity. Qed.

(** The text of a number holds neither a tab nor a line end, so the header
    rows of the tab-delimited format can always be written. *)
Lemma needs_escape_app (d : csv.Dialect) (a b : string) :
  csv.needs_escape d (a ++ b)%string = csv.needs_escape d a || csv.needs_escape d b.
Proof.
  induction a as [|c a IH]; simpl; [reflexivity|].
  rewrite IH. now rewrite orb_assoc.
Qed.

Lemma uint_text_plain (u : Decimal.uint) :
  csv.needs_escape QGroundControlParam.CSVDialect (NilEmpty.string_of_uint u) = false.
Proof. induction u; simpl; auto. Qed.

Lemma str_of_int_plain (z : Z) :
  csv.needs_escape QGroundControlParam.CSVDialect (Py.str_of_int z) = false.
Proof.
  unfold Py.str_of_int, NilZero.string_of_int.
  destruct (Z.to_int z) as [u|u]; unfold NilZero.string_of_uint.
  - destruct u; try reflexivity; apply (uint_text_plain (_ u)).
  - change (csv.needs_escape QGroundControlParam.CSVDialect
              ("-" ++ match u with
                      | Decimal.Nil => "0"
                      | _ => NilEmpty.string_of_uint u
                      end)%string = false).
    rewrite needs_escape_app. simpl.
    destruct u; try reflexivity; apply (uint_text_plain (_ u)).
Qed.

Lemma two_digits_plain (n : Z) :
  csv.needs_escape QGroundControlParam.CSVDialect (datetime.two_digits n) = false.
Proof.
  unfold datetime.two_digits. destruct (n <? 10).
  - rewrite needs_escape_app, str_of_int_plain. reflexivity.
  - apply str_of_int_plain.
Qed.

Lemma strftime_plain (t : datetime.datetime) :
  csv.needs_escape QGroundControlParam.CSVDialect (datetime.strftime t) = false.
Proof.
  unfold datetime.strftime.
  repeat rewrite needs_escape_app.
  repeat rewrite two_digits_plain. rewrite str_of_int_plain. reflexivity.
Qed.

Lemma writerow_one_plain (repr_float : Py.float -> string) (text : string) :
  csv.needs_escape QGroundControlParam.CSVDialect text = false ->
  text <> ""%string ->
  csv.writerow repr_float QGroundControlParam.CSVDialect [csv.CStr text]
  = Ok (text ++ nl)%string.
Proof.
  intros Hp Hne. unfold csv.writerow. cbn [csv.row_texts csv.cell_text].
  rewrite Hp. destruct text; [congruence|]. reflexivity.
Qed.

(** The three header rows are written whatever the stamp and the target. *)
Lemma header_is_written (repr_float : Py.float -> string) (self : ParamFile)
  (t : datetime.datetime) (file_ : TextIO.TextIO) :
  for_each (QGroundControlParam.writer_writerow repr_float)
    (QGroundControlParam.header self t) (self, file_)
  = ((self, fold_left TextIO.write (header_lines self t) file_), Ok tt).
Proof.
  unfold QGroundControlParam.header, header_lines.
  cbn [for_each fold_left].
  unfold QGroundControlParam.writer_writerow.
  rewrite writerow_one_plain.
  2:{ rewrite needs_escape_app, strftime_plain. reflexivity. }
  2:{ discriminate. }
  cbn [fst snd].
  rewrite writerow_one_plain.
  2:{ repeat rewrite needs_escape_app. repeat rewrite str_of_int_plain. reflexivity. }
  2:{ discriminate. }
  cbn [fst snd].
  reflexivity.
Qed.

(** C6.  [save] of the tab-delimited class writes the three header rows and
    then, when the mapping holds a parameter, raises [AttributeError] at the
    first of them: the loop runs over the keys of the mapping, which are
    strings, and a string has no [name].  No data row is written.  For the
    parameter [FOO = 3] and the target (1, 1) the stream holds the three
    header rows and nothing else, where the specification has the row
    [1 1 FOO 3 6] after them.  [to_type] gives 6 for an integer and 9 for a
    float, and raises [TypeError], not [ValueError], for a string. *)
Theorem QGroundControl_save_writes_no_data_row :
  (forall (repr_float : Py.float -> string) (now : datetime.datetime)
          (file_ : TextIO.TextIO) (self : ParamFile)
          (k : string) (v : Parameter_) (d : dict.dict Parameter_),
      let self0 := set_parameters_attr self ((k, v) :: d) in
      let self' := fst (default_stamp now self0) in
      let t := snd (default_stamp now self0) in
      save repr_float QGroundControl now file_ self0
      = ((self', fold_left TextIO.write (header_lines self' t) file_),
         Raise AttributeError))
  /\ (forall repr_float : Py.float -> string,
         save repr_float QGroundControl noon blank file_FOO_3
         = ((file_FOO_3,
             {| TextIO.lines := [];
                TextIO.written :=
                  ("# NOTE: 04.03.2021 12:00:00" ++ nl
                   ++ "# Onboard parameters saved by mavparam for (1.1)" ++ nl
                   ++ "# MAV ID" ++ tab ++ "COMPONENT ID" ++ tab ++ "PARAM NAME"
                   ++ tab ++ "VALUE" ++ tab ++ "(TYPE)" ++ nl)%string |}),
            Raise AttributeError))
  /\ QGroundControlParam.to_type (VInt 3) = Ok 6
  /\ QGroundControlParam.to_type (VDouble one_and_a_half) = Ok 9
  /\ QGroundControlParam.to_type (VStr "FOO") = Raise TypeError.
Proof.
  split; [|repeat split; reflexivity].
  intros repr_float now file_ self k v d self0 self' t.
  unfold save, QGroundControlParam.save.
  subst self' t.
  destruct (default_stamp now self0) as [self' t] eqn:Hs.
  rewrite header_is_written. cbn [fst snd].
  assert (Hp : parameters self' = Some ((k, v) :: d)).
  { unfold default_stamp in Hs. destruct (stamp self0); inversion Hs; reflexivity. }
  unfold iter_parameters. rewrite Hp. reflexivity.
Qed.

(** With no parameter to write, [save] of the tab-delimited class succeeds
    and the stream holds exactly the three header rows. *)
Lemma QGroundControl_save_empty (repr_float : Py.float -> string)
  (now : datetime.datetime) (file_ : TextIO.TextIO) (self : ParamFile) :
  let self0 := set_parameters_attr self [] in
  let self' := fst (default_stamp now self0) in
  let t := snd (default_stamp now self0) in
  save repr_float QGroundControl now file_ self0
  = ((self', fold_left TextIO.write (header_lines self' t) file_), Ok tt).
Proof.
  intros self0 self' t.
  unfold save, QGroundControlParam.save.
  subst self' t.
  destruct (default_stamp now self0) as [self' t] eqn:Hs.
  rewrite header_is_written. cbn [fst snd].
  assert (Hp : parameters self' = Some []).
  { unfold default_stamp in Hs. destruct (stamp self0); inversion Hs; reflexivity. }
  unfold iter_parameters. rewrite Hp. reflexivity.
Qed.

(** ** Remote calls *)

Lemma requests_app (a b : trace) : requests (a ++ b) = requests a ++ requests b.
Proof. unfold requests. apply flat_map_app. Qed.

Lemma requests_delivered (msgs : list ParamEvent) :
  requests (map Delivered msgs) = [].
Proof. induction msgs; simpl; auto. Qed.

Ltac readiness :=
  repeat match goal with
         | |- _ /\ _ => split
         | |- _ <-> _ => split
         | |- _ -> _ => intro
         | H : true = false |- _ => discriminate H
         | H : false = true |- _ => discriminate H
         | H : Ok _ = Raise _ |- _ => discriminate H
         end;
  try reflexivity; try discriminate;
  try (eexists; reflexivity);
  try (rewrite requests_app; simpl; rewrite ?app_nil_r; reflexivity);
  try (eexists; rewrite requests_app; simpl; reflexivity).

(** C8.  Each of the four remote calls first waits for its service, the
    three helpers with [TIMEOUT], which is 5 seconds, and [call_pull] with
    the [timeout_sec] of the plugin, which a new plugin has at 5 seconds.
    Each raises [ServiceWaitTimeout] (the specification's
    ServiceUnavailable) if and only if that wait ends without the service
    being ready, and no request is sent then.  A helper that is given
    neither a client nor a node name stops at its assertion before it
    waits. *)
Theorem remote_calls_wait_for_service :
  TIMEOUT = 5%Q
  /\ (forall node l g s p v, timeout_sec (ParamPlugin_new node l g s p v) = 5%Q)
  /\ (forall (PullResponse : Type) (remote : Remote PullResponse)
             (self : arg_value) (node : Node) (node_name : option string)
             (client : option Client) (prefixes : list string) (tr : trace),
         match resolved ListParameters "list_parameters" node_name client with
         | Some c =>
             readiness_contract remote c TIMEOUT tr
               (call_list_parameters remote self node node_name client prefixes tr)
         | None =>
             call_list_parameters remote self node node_name client prefixes tr
             = (tr, Raise AssertionError)
         end)
  /\ (forall (PullResponse : Type) (remote : Remote PullResponse)
             (self : arg_value) (node : Node) (node_name : option string)
             (client : option Client) (names : list string) (tr : trace),
         match resolved GetParameters "get_parameters" node_name client with
         | Some c =>
             readiness_contract remote c TIMEOUT tr
               (call_get_parameters remote self node node_name client names tr)
         | None =>
             call_get_parameters remote self node node_name client names tr
             = (tr, Raise AssertionError)
         end)
  /\ (forall (PullResponse : Type) (remote : Remote PullResponse)
             (self : arg_value) (node : Node) (node_name : option string)
             (client : option Client) (parameters : list Parameter_) (tr : trace),
         match resolved SetParameters "set_parameters" node_name client with
         | Some c =>
             readiness_contract remote c TIMEOUT tr
               (call_set_parameters remote self node node_name client parameters tr)
         | None =>
             call_set_parameters remote self node node_name client parameters tr
             = (tr, Raise AssertionError)
         end)
  /\ (forall (PullResponse : Type) (remote : Remote PullResponse)
             (force_pull : bool) (self : ParamPlugin) (tr : trace),
         readiness_contract remote (pull self) (timeout_sec self) tr
           (snd (fst (call_pull remote force_pull self tr)),
            snd (call_pull remote force_pull self tr))).
Proof.
  split; [reflexivity|]. split; [reflexivity|].
  split; [|split; [|split]].
  - intros PR remote self node node_name client prefixes tr.
    unfold resolved, call_list_parameters, resolve_client, bind, wait_for_service,
      readiness_contract, ret, raise, emit, call.
    destruct client as [c|]; [|destruct node_name as [n|]; [|reflexivity]];
      simpl; destruct (wait_ready remote tr _ TIMEOUT) eqn:Hready; simpl;
      rewrite <- ?app_assoc; simpl; readiness.
  - intros PR remote self node node_name client names tr.
    unfold resolved, call_get_parameters, resolve_client, bind, wait_for_service,
      readiness_contract, ret, raise, emit, call.
    destruct client as [c|]; [|destruct node_name as [n|]; [|reflexivity]];
      simpl; destruct (wait_ready remote tr _ TIMEOUT) eqn:Hready; simpl;
      rewrite <- ?app_assoc; simpl; readiness.
  - intros PR remote self node node_name client parameters tr.
    unfold resolved, call_set_parameters, resolve_client, bind, wait_for_service,
      readiness_contract, ret, raise, emit, call.
    destruct client as [c|]; [|destruct node_name as [n|]; [|reflexivity]];
      simpl; destruct (wait_ready remote tr _ TIMEOUT) eqn:Hready; simpl;
      rewrite <- ?app_assoc; simpl; readiness.
  - intros PR remote force_pull self tr.
    unfold call_pull, wait_for_service, readiness_contract.
    destruct (wait_ready remote tr _ _) eqn:Hready; simpl;
      rewrite <- ?app_assoc; simpl; readiness.
    eexists. rewrite !requests_app. simpl.
    rewrite requests_app, requests_delivered. simpl. reflexivity.
Qed.

(** ** The methods of the store *)

(** Without an attribute [data] of its own, an instance has none: the
    lookup goes to [__getattr__], which asks for [self.data] again, until
    the stack is full. *)
Lemma self_data_missing (depth : nat) (self : ParamDict) :
  dict.get (__dict__ self) "data" = None ->
  self_data depth self = Raise RecursionError.
Proof.
  intros H. induction depth as [|depth IH]; cbn [self_data]; rewrite H;
    [reflexivity|]. now rewrite IH.
Qed.

Lemma self_data_found (depth : nat) (self : ParamDict) (v : pyobj) :
  dict.get (__dict__ self) "data" = Some v ->
  self_data depth self = Ok v.
Proof. intros H. destruct depth; cbn [self_data]; now rewrite H. Qed.

(** The call of the source is refused. *)
Lemma written_call_refused : refused written_call = true.
Proof. reflexivity. Qed.

(** So [__setitem__], as it is written, does nothing but raise. *)
Lemma setitem_refused (PullResponse : Type) (remote : Remote PullResponse)
  (key : string) (value : pyobj) (self : ParamDict) (tr : trace) :
  __setitem__ remote written_call key value self tr
  = ((self, tr), Raise SyntaxError).
Proof. reflexivity. Qed.

(** Were the call accepted, the first statement would still fail on an
    instance that the class has made. *)
Lemma setitem_body_missing (PullResponse : Type) (remote : Remote PullResponse)
  (call : call_syntax) (key : string) (value : pyobj) (self : ParamDict)
  (tr : trace) :
  dict.get (__dict__ self) "data" = None ->
  setitem_body remote call key value self tr = ((self, tr), Raise RecursionError).
Proof.
  intros H. unfold setitem_body. now rewrite (self_data_missing _ _ H).
Qed.

Lemma setitem_outcome (PullResponse : Type) (remote : Remote PullResponse)
  (call : call_syntax) (key : string) (value : pyobj) (self : ParamDict)
  (tr : trace) :
  dict.get (__dict__ self) "data" = None ->
  __setitem__ remote call key value self tr
  = ((self, tr), Raise (if refused call then SyntaxError else RecursionError)).
Proof.
  intros H. unfold __setitem__. destruct (refused call); [reflexivity|].
  now apply setitem_body_missing.
Qed.

(** [ParamDict()] returns no instance, whatever the call in [__setitem__]. *)
Lemma ParamDict_new_raises (PullResponse : Type) (remote : Remote PullResponse)
  (call : call_syntax) (tr : trace) :
  ParamDict_new remote call tr
  = (tr, Raise (if refused call then SyntaxError else RecursionError)).
Proof.
  unfold ParamDict_new, __setattr__.
  now rewrite (setitem_outcome _ remote call "data" (PDict []) ParamDict___new__ tr eq_refl).
Qed.

(** With the arguments in the order that the grammar accepts, on an
    instance that has been given a mapping and a plugin: the assignment
    writes the value under the key, whatever the name of the value, and the
    request that follows carries no parameter. *)
Lemma setitem_reordered (PullResponse : Type) (remote : Remote PullResponse)
  (key : string) (p : Parameter_) (d : dict.dict pyobj) (pm : plugin_ref)
  (tr : trace) :
  let self := {| __dict__ := [("data", PDict d); ("_pm", PPlugin pm)]%string |} in
  let out := __setitem__ remote reordered_call key (PParameter p) self tr in
  mapping (fst (fst out)) = Some (dict.set d key (PParameter p))
  /\ requests (snd (fst out))
     = requests tr
       ++ (if wait_ready remote tr (pm_set_parameters pm) TIMEOUT
           then [(pm_set_parameters pm, SetRequest [])]
           else []).
Proof.
  intros self out. subst out self.
  unfold __setitem__, setitem_body. cbn [refused reordered_call map fst snd
    positional_follows_keyword orb].
  cbn [self_data Py.recursion_limit __dict__ dict.get String.eqb Ascii.eqb Bool.eqb
       assign_item dict.set].
  cbn [eval_args eval_arg self_pm __dict__ dict.get dict.set String.eqb Ascii.eqb
       Bool.eqb list_argument as_parameters option_map].
  unfold apply_call_set_parameters. cbn [bind_arguments].
  unfold call_set_parameters, resolve_client, bind, wait_for_service, ret, raise,
    emit, call. simpl.
  destruct (wait_ready remote tr (pm_set_parameters pm) TIMEOUT); simpl;
    (split; [reflexivity|]);
    rewrite <- ?app_assoc, ?requests_app; simpl; rewrite ?app_nil_r; reflexivity.
Qed.

(** ** Pull *)

(** An access to [param] on a plugin without a store raises when it makes
    the store, before it subscribes or pulls, and leaves the plugin as it
    was: [SyntaxError] from the call as it is written, [RecursionError]
    from any call that the grammar accepts in its place. *)
Lemma param_raises (PullResponse : Type) (remote : Remote PullResponse)
  (call : call_syntax) (self : ParamPlugin) (tr : trace) :
  _parameters self = None ->
  param remote call self tr
  = ((self, tr), Raise (if refused call then SyntaxError else RecursionError)).
Proof.
  intros H. unfold param. now rewrite H, ParamDict_new_raises.
Qed.

Lemma call_pull_plugin (PullResponse : Type) (remote : Remote PullResponse)
  (force_pull : bool) (self : ParamPlugin) (tr : trace) :
  fst (fst (call_pull remote force_pull self tr)) = self.
Proof.
  unfold call_pull, wait_for_service.
  now destruct (wait_ready remote tr (pull self) (timeout_sec self)).
Qed.

(** No operation of the plugin gives it a store. *)
Lemma run_plugin_ops_plugin (PullResponse : Type) (remote : Remote PullResponse)
  (call : call_syntax) (ops : list plugin_op) (st : ParamPlugin * trace) :
  _parameters (fst st) = None ->
  fst (run_plugin_ops remote call ops st) = fst st.
Proof.
  revert st. induction ops as [|op ops IH]; intros st H; [reflexivity|].
  cbn [run_plugin_ops fold_left].
  change (fold_left (fun st op => run_plugin_op remote call op st) ops ?s)
    with (run_plugin_ops remote call ops s).
  assert (E : fst (run_plugin_op remote call op st) = fst st).
  { destruct op as [|force_pull]; cbn [run_plugin_op].
    - now rewrite (param_raises _ remote call (fst st) (snd st) H).
    - apply call_pull_plugin. }
  rewrite IH; rewrite E; [reflexivity|exact H].
Qed.



(** ** The invariant of the store *)

Lemma event_handler_keeps_names (msg : ParamEvent) (self : ParamDict) :
  store_keys_are_names self ->
  store_keys_are_names (fst (_event_handler msg self)).
Proof.
  intros Hinv. unfold _event_handler.
  destruct (dict.get (__dict__ self) "data") as [v|] eqn:Hd.
  2:{ now rewrite (self_data_missing _ _ Hd). }
  rewrite (self_data_found _ _ _ Hd).
  destruct v as [|q|pm|d]; try exact Hinv.
  cbn [assign_item fst].
  intros d' k v Hmap Hget.
  unfold mapping in Hmap. cbn [__dict__] in Hmap.
  rewrite dict_facts.get_set_same in Hmap. injection Hmap as <-.
  destruct (string_dec (param_id msg) k) as [E|E].
  - subst k. rewrite dict_facts.get_set_same in Hget. injection Hget as <-.
    eexists. split; reflexivity.
  - rewrite dict_facts.get_set_other in Hget by exact E.
    apply (Hinv d k v); [|exact Hget].
    unfold mapping. now rewrite Hd.
Qed.

Lemma run_op_keeps_names (PullResponse : Type) (remote : Remote PullResponse)
  (op : store_op) (st : ParamDict * trace) :
  store_keys_are_names (fst st) ->
  store_keys_are_names (fst (run_op remote op st)).
Proof.
  intros Hinv. destruct op as [key value|msg]; cbn [run_op].
  - now rewrite setitem_refused.
  - now apply event_handler_keeps_names.
Qed.



(** ** Set *)

(** C4.  [store[key] = value] neither updates the mapping nor sends a
    request: the call in [__setitem__] puts a positional argument after
    two keyword arguments, so Python refuses the function
    ([SyntaxError]) and none of its statements runs.  In the one order
    that the grammar accepts for the same arguments, [[value]] is bound to
    the helper's first parameter [self] and [parameters] keeps its
    default, the empty list, so that the request, when the service is
    ready, carries no parameter; with the arguments in that order, the
    assignment on a store that has its mapping and its plugin puts
    [value] under [key] and then sends that request without the
    parameter. *)
Theorem setitem_sends_no_parameter :
  (forall (PullResponse : Type) (remote : Remote PullResponse)
          (key : string) (value : pyobj) (self : ParamDict) (tr : trace),
      __setitem__ remote written_call key value self tr
      = ((self, tr), Raise SyntaxError))
  /\ (forall (PullResponse : Type) (remote : Remote PullResponse)
             (value : Parameter_) (pm : plugin_ref) (tr : trace),
         apply_call_set_parameters remote
           [Positional (AParameters [value]);
            Keyword "node" (ANode (pm_node pm));
            Keyword "client" (AClient (pm_set_parameters pm))] tr
         = call_set_parameters remote (AParameters [value]) (pm_node pm) None
             (Some (pm_set_parameters pm)) [] tr
         /\ requests (fst (call_set_parameters remote (AParameters [value])
                             (pm_node pm) None (Some (pm_set_parameters pm)) [] tr))
            = requests tr ++
              (if wait_ready remote tr (pm_set_parameters pm) TIMEOUT
               then [(pm_set_parameters pm, SetRequest [])]
               else []))
  /\ (forall (PullResponse : Type) (remote : Remote PullResponse)
             (key : string) (p : Parameter_) (d : dict.dict pyobj)
             (pm : plugin_ref) (tr : trace),
         let self :=
           {| __dict__ := [("data", PDict d); ("_pm", PPlugin pm)]%string |} in
         let out := __setitem__ remote reordered_call key (PParameter p) self tr in
         mapping (fst (fst out)) = Some (dict.set d key (PParameter p))
         /\ requests (snd (fst out))
            = requests tr
              ++ (if wait_ready remote tr (pm_set_parameters pm) TIMEOUT
                  then [(pm_set_parameters pm, SetRequest [])]
                  else []))
  /\ __setitem__ remote_B written_call "A"
       (PParameter {| name := "A"; value_ := VInt 5 |}) instance_A []
     = ((instance_A, []), Raise SyntaxError)
  /\ mapping instance_A = Some [("A"%string, PParameter A_1)].
Proof.
  split; [|split; [|split; [|split; reflexivity]]].
  - intros PR remote key value self tr. reflexivity.
  - intros PR remote value pm tr. split; [reflexivity|].
    unfold call_set_parameters, resolve_client, bind, wait_for_service, ret,
      raise, emit, call.
    simpl.
    destruct (wait_ready remote tr (pm_set_parameters pm) TIMEOUT); simpl;
      rewrite <- ?app_assoc, ?requests_app; simpl; rewrite ?app_nil_r; reflexivity.
  - intros PR remote key p d pm tr. apply setitem_reordered.
Qed.

(** Passed by keyword, the list reaches the request: this is the call that
    the assignment does not make. *)
Lemma set_parameters_by_keyword (PullResponse : Type)
  (remote : Remote PullResponse) (value : Parameter_) (pm : plugin_ref)
  (self : arg_value) (tr : trace) :
  wait_ready remote tr (pm_set_parameters pm) TIMEOUT = true ->
  requests (fst (apply_call_set_parameters remote
                   [Positional self;
                    Keyword "node" (ANode (pm_node pm));
                    Keyword "client" (AClient (pm_set_parameters pm));
                    Keyword "parameters" (AParameters [value])] tr))
  = requests tr ++ [(pm_set_parameters pm, SetRequest [to_parameter_msg value])].
Proof.
  intros Hready.
  unfold apply_call_set_parameters. simpl.
  unfold call_set_parameters, resolve_client, bind, wait_for_service, ret,
    raise, emit, call.
  simpl. rewrite Hready. simpl.
  rewrite <- ?app_assoc, ?requests_app. simpl. rewrite ?app_nil_r. reflexivity.
Qed.

(** * Further properties of the parameter files *)

(** ** What a row and a text can raise *)

Lemma to_numeric_numeric (x : string) (v : scalar) :
  to_numeric x = Ok v -> numeric v = true.
Proof.
  unfold to_numeric.
  destruct (Py.contains "." x).
  - destruct (Py.float_of_string x); [|discriminate]. now intros [= <-].
  - destruct (Py.int_of_string x); [|discriminate]. now intros [= <-].
Qed.

Lemma to_numeric_error (x : string) (e : exn) :
  to_numeric x = Raise e -> e = ValueError.
Proof.
  unfold to_numeric.
  destruct (Py.contains "." x).
  - destruct (Py.float_of_string x); [discriminate|]. now intros [= <-].
  - destruct (Py.int_of_string x); [discriminate|]. now intros [= <-].
Qed.

(** The body of the loop on a row with a first field, by class. *)
Lemma row_body_cons (cls : ParamFileClass) (d0 : string) (data : list string) :
  row_body cls (d0 :: data) =
  if Py.startswith d0 "#" then Ok None
  else if negb (List.length (d0 :: data) =? field_count cls)%nat then Raise ValueError
  else
    match nth_error (d0 :: data) (match cls with QGroundControl => 3 | _ => 1 end) with
    | None => Raise IndexError
    | Some v =>
        match to_numeric v with
        | Raise e => Raise e
        | Ok x =>
            Ok (Some {| name := Py.strip
                                  (nth (match cls with QGroundControl => 2 | _ => 0 end)
                                     (d0 :: data) "");
                        value_ := x |})
        end
    end.
Proof.
  destruct cls; unfold row_body, MavProxyParam.row_body, QGroundControlParam.row_body,
    field_count; cbn [Py.getitem nth_error];
    destruct (Py.startswith d0 "#"); try reflexivity.
  - destruct data as [|d1 [|d2 data]]; reflexivity.
  - destruct data as [|d1 [|d2 data]]; reflexivity.
  - destruct data as [|d1 [|d2 [|d3 [|d4 [|d5 data]]]]]; reflexivity.
Qed.

(** What a row that yields a parameter looks like: it is no comment, it has
    the number of fields of its class, the name is a field of the row,
    stripped, and the value is what [to_numeric] reads in a field. *)
Lemma row_body_yields (cls : ParamFileClass) (data : list string) (p : Parameter_) :
  row_body cls data = Ok (Some p) ->
  is_comment data = false
  /\ List.length data = field_count cls
  /\ exists n v, name p = Py.strip n /\ to_numeric v = Ok (value_ p).
Proof.
  destruct data as [|d0 data]; [rewrite row_body_no_field; discriminate|].
  rewrite row_body_cons. cbn [is_comment].
  destruct (Py.startswith d0 "#"); [discriminate|].
  destruct (List.length (d0 :: data) =? field_count cls)%nat eqn:E; [|discriminate].
  apply Nat.eqb_eq in E. cbn [negb].
  destruct (nth_error (d0 :: data) _) as [v|]; [|discriminate].
  destruct (to_numeric v) as [x|e] eqn:Hv; [|discriminate].
  intros [= <-]. simpl name. simpl value_.
  split; [reflexivity|split; [exact E|eauto]].
Qed.

(** The only errors the body of the parse loop raises on a row are
    [IndexError], exactly on a row without fields, and [ValueError], on a
    row that has a first field and is no comment. *)
Lemma row_body_error (cls : ParamFileClass) (data : list string) (e : exn) :
  row_body cls data = Raise e ->
  (data = [] /\ e = IndexError)
  \/ (data <> [] /\ is_comment data = false /\ e = ValueError).
Proof.
  destruct data as [|d0 data]; [rewrite row_body_no_field; intros [= <-]; now left|].
  rewrite row_body_cons. cbn [is_comment]. intros H. right.
  split; [discriminate|].
  destruct (Py.startswith d0 "#"); [discriminate|]. split; [reflexivity|].
  destruct (List.length (d0 :: data) =? field_count cls)%nat eqn:E;
    cbn [negb] in H; [|now injection H as <-].
  apply Nat.eqb_eq in E.
  destruct (nth_error (d0 :: data) _) as [v|] eqn:Hnth.
  - destruct (to_numeric v) as [x|e'] eqn:Hv; [discriminate|].
    injection H as <-. now apply to_numeric_error in Hv.
  - exfalso. apply nth_error_None in Hnth. rewrite E in Hnth.
    destruct cls; simpl in Hnth; lia.
Qed.

(** The csv reader raises nothing but [csv.Error]. *)
Lemma parse_line_error (d : csv.Dialect) (line : string) (p : csv.parser) (e : exn) :
  csv.parse_line d p line = Raise e -> e = CsvError.
Proof.
  revert p. induction line as [|c line IH]; intros p; simpl; [discriminate|].
  destruct (csv.parse_process_char d p c) as [p'|e'] eqn:Hc.
  - apply IH.
  - intros [= <-].
    unfold csv.parse_process_char, csv.start_field, csv.parse_add_char in Hc.
    repeat match type of Hc with
           | context [match ?x with _ => _ end] => destruct x; try discriminate
           | context [if ?x then _ else _] => destruct x; try discriminate
           end; now injection Hc as <-.
Qed.

(** An error of the csv reader is [csv.Error] on a line, or the error with
    which the stream fails. *)
Lemma reader_error (d : csv.Dialect) (items : list (result string)) (e : exn) :
  In (Raise e) (csv.reader items d) ->
  (e = CsvError
   /\ exists line,
       In (Ok line) items /\ csv.parse_line d csv.parse_reset line = Raise CsvError)
  \/ In (Raise e) items.
Proof.
  unfold csv.reader. intros H. apply in_map_iff in H.
  destruct H as [[line|e'] [H Hin]].
  - left. pose proof (parse_line_error _ _ _ _ H) as ->. eauto.
  - right. now injection H as <-.
Qed.

(** How a run of the loop ends: at the first item that the loop does not
    get through, with the error of that item. *)
Lemma for_rows_ends (cls : ParamFileClass) (items : list (result (list string)))
  (e : exn) :
  ended (for_rows (row_body cls) items) = Raise e ->
  exists item, In item items /\ item_outcome cls item = Raise e.
Proof.
  induction items as [|[data|e'] items IH]; simpl.
  - discriminate.
  - destruct (row_body cls data) as [[p|]|e''] eqn:Hd; simpl.
    + intros H. destruct (IH H) as [item [Hin Hitem]]. exists item. auto.
    + intros H. destruct (IH H) as [item [Hin Hitem]]. exists item. auto.
    + intros [= <-]. exists (Ok data). auto.
  - intros [= <-]. exists (Raise e'). auto.
Qed.

(** X1.  What [load] raises, for each of the three classes: [IndexError],
    only when the stream has a row without fields; [ValueError], only when
    it has a row with a first field that is no comment and that the loop
    refuses; [csv.Error], only when the csv reader refuses a line of the
    stream; and the error with which the stream itself fails while it is
    read, which is passed on as it is.  Nothing else. *)
Theorem load_error_kinds :
  forall (cls : ParamFileClass) (file_ : TextIO.TextIO) (self : ParamFile) (e : exn),
    snd (load cls file_ self) = Raise e ->
    (e = IndexError
     /\ In (Ok []) (csv.reader (TextIO.lines file_) (CSVDialect cls)))
    \/ (e = ValueError
        /\ exists data,
            In (Ok data) (csv.reader (TextIO.lines file_) (CSVDialect cls))
            /\ data <> [] /\ is_comment data = false
            /\ row_body cls data = Raise ValueError)
    \/ (e = CsvError
        /\ exists line,
            In (Ok line) (TextIO.lines file_)
            /\ csv.parse_line (CSVDialect cls) csv.parse_reset line = Raise CsvError)
    \/ In (Raise e) (TextIO.lines file_).
Proof.
  intros cls file_ self e. rewrite load_unfold.
  destruct (ended (_parse_param_file cls file_)) as [[]|e'] eqn:Hend; simpl;
    [discriminate|].
  intros [= <-]. rewrite parse_unfold in Hend.
  destruct (for_rows_ends _ _ _ Hend) as [[data|e''] [Hin Hitem]]; simpl in Hitem.
  - destruct (row_body_error cls data e' Hitem) as [[-> ->]|[Hne [Hc ->]]].
    + left. auto.
    + right. left. split; [reflexivity|]. exists data. auto.
  - injection Hitem as <-. right. right.
    destruct (reader_error _ _ _ Hin) as [[-> Hline]|Hfail]; auto.
Qed.

(** The theorem at a stream that fails after its first line, as a stream
    does that is closed while it is read. *)
Lemma load_error_kinds_witness :
  let file_ := {| TextIO.lines := [Ok ("A 1" ++ nl)%string; Raise ValueError];
                  TextIO.written := "" |} in
  (ValueError = IndexError
   /\ In (Ok []) (csv.reader (TextIO.lines file_) (CSVDialect MavProxy)))
  \/ (ValueError = ValueError
      /\ exists data,
          In (Ok data) (csv.reader (TextIO.lines file_) (CSVDialect MavProxy))
          /\ data <> [] /\ is_comment data = false
          /\ row_body MavProxy data = Raise ValueError)
  \/ (ValueError = CsvError
      /\ exists line,
          In (Ok line) (TextIO.lines file_)
          /\ csv.parse_line (CSVDialect MavProxy) csv.parse_reset line
             = Raise CsvError)
  \/ In (Raise ValueError) (TextIO.lines file_).
Proof.
  apply (load_error_kinds MavProxy
           {| TextIO.lines := [Ok ("A 1" ++ nl)%string; Raise ValueError];
              TextIO.written := "" |} ParamFile_new ValueError).
  reflexivity.
Defined.

(** ** All or nothing *)

(** X2.  What [load] does is decided by the text alone.  Either it succeeds
    and stores one and the same mapping whatever the object held before
    (the old mapping is replaced, not merged, and the stamp and the target
    are not touched), or it raises one and the same error and leaves every
    object exactly as it was.  So a [load] that succeeds forgets what an
    earlier [load] stored, and a [load] that raises keeps it. *)
Theorem load_all_or_nothing :
  forall (cls : ParamFileClass) (file_ : TextIO.TextIO),
    ((exists params : dict.dict Parameter_,
         forall self : ParamFile,
           load cls file_ self = (set_parameters_attr self params, Ok tt))
     \/ (exists e : exn,
            forall self : ParamFile, load cls file_ self = (self, Raise e)))
    /\ forall (file0 : TextIO.TextIO) (self : ParamFile),
        load cls file_ (fst (load cls file0 self))
        = match snd (load cls file_ self) with
          | Ok _ => load cls file_ self
          | Raise e => (fst (load cls file0 self), Raise e)
          end.
Proof.
  intros cls file_. split.
  - destruct (ended (_parse_param_file cls file_)) as [[]|e] eqn:Hend.
    + left. eexists. intros self. rewrite load_unfold, Hend. reflexivity.
    + right. exists e. intros self. rewrite load_unfold, Hend. reflexivity.
  - intros file0 self. rewrite !(load_unfold cls file_).
    destruct (ended (_parse_param_file cls file_)) as [[]|e]; [|reflexivity].
    cbn [snd]. rewrite (load_unfold cls file0).
    destruct (ended (_parse_param_file cls file0)); reflexivity.
Qed.

(** X3.  The first item of the reader that the loop does not get through
    decides the outcome: the generator has by then yielded the parameters
    of the rows before it, [load] raises the error of that item, keeps
    none of these parameters and leaves the object as it was. *)
Theorem load_stops_at_first_refusal :
  forall (cls : ParamFileClass) (file_ : TextIO.TextIO) (self : ParamFile)
         (pre : list (list string)) (item : result (list string))
         (post : list (result (list string))) (e : exn),
    csv.reader (TextIO.lines file_) (CSVDialect cls) = map Ok pre ++ item :: post ->
    forallb (row_accepted cls) pre = true ->
    item_outcome cls item = Raise e ->
    yielded (_parse_param_file cls file_) = flat_map (row_yield cls) pre
    /\ ended (_parse_param_file cls file_) = Raise e
    /\ load cls file_ self = (self, Raise e).
Proof.
  intros cls file_ self pre item post e Hrows Hpre Hitem.
  assert (Hrest : for_rows (row_body cls) (item :: post)
                  = {| yielded := []; ended := Raise e |}).
  { destruct item as [data|e']; simpl in *.
    - now rewrite Hitem.
    - now injection Hitem as <-. }
  assert (Hparse : _parse_param_file cls file_
                   = {| yielded := flat_map (row_yield cls) pre; ended := Raise e |}).
  { rewrite parse_unfold, Hrows, for_rows_accepted by exact Hpre.
    rewrite Hrest. simpl. now rewrite app_nil_r. }
  rewrite load_unfold, Hparse. simpl. auto.
Qed.

(** The theorem at the text [A 1], [B x], [C 3]: the parameter [A] has been
    yielded when the second row is refused, and is not kept. *)
Lemma load_stops_at_first_refusal_witness :
  yielded (_parse_param_file MavProxy (reading ["A 1"; "B x"; "C 3"]%string))
  = flat_map (row_yield MavProxy) [["A"; "1"]%string]
  /\ ended (_parse_param_file MavProxy (reading ["A 1"; "B x"; "C 3"]%string))
     = Raise ValueError
  /\ load MavProxy (reading ["A 1"; "B x"; "C 3"]%string) file_FOO_3
     = (file_FOO_3, Raise ValueError).
Proof.
  apply (load_stops_at_first_refusal MavProxy
           (reading ["A 1"; "B x"; "C 3"]%string) file_FOO_3
           [["A"; "1"]%string] (Ok ["B"; "x"]%string) [Ok ["C"; "3"]%string]
           ValueError); reflexivity.
Defined.

(** ** Comments *)

Lemma row_body_comment (cls : ParamFileClass) (data : list string) :
  is_comment data = true -> row_body cls data = Ok None.
Proof.
  destruct data as [|d0 data]; [discriminate|].
  cbn [is_comment]. intros H. rewrite row_body_cons, H. reflexivity.
Qed.

Lemma for_rows_app (cls : ParamFileClass) (a b b' : list (result (list string))) :
  for_rows (row_body cls) b = for_rows (row_body cls) b' ->
  for_rows (row_body cls) (a ++ b) = for_rows (row_body cls) (a ++ b').
Proof.
  intros H. induction a as [|[data|e] a IH]; simpl; [exact H| |reflexivity].
  destruct (row_body cls data) as [[p|]|e]; try reflexivity.
  - now rewrite IH.
  - exact IH.
Qed.

(** X4.  A comment row, a row whose first field starts with [#], is
    skipped whatever it holds and however many fields it has: with or
    without it, a text is parsed and loaded to the same result, for each of
    the three classes. *)
Theorem comment_row_is_skipped :
  forall (cls : ParamFileClass) (file1 file2 : TextIO.TextIO) (self : ParamFile)
         (pre post : list (result (list string))) (data : list string),
    is_comment data = true ->
    csv.reader (TextIO.lines file1) (CSVDialect cls) = pre ++ Ok data :: post ->
    csv.reader (TextIO.lines file2) (CSVDialect cls) = pre ++ post ->
    _parse_param_file cls file1 = _parse_param_file cls file2
    /\ load cls file1 self = load cls file2 self.
Proof.
  intros cls file1 file2 self pre post data Hc H1 H2.
  assert (Hparse : _parse_param_file cls file1 = _parse_param_file cls file2).
  { rewrite !parse_unfold, H1, H2. apply for_rows_app.
    simpl. now rewrite (row_body_comment cls data Hc). }
  split; [exact Hparse|]. now rewrite !load_unfold, Hparse.
Qed.

(** The theorem at a comment of three fields between two data rows. *)
Lemma comment_row_is_skipped_witness :
  _parse_param_file MavProxy (reading ["A 1"; "# x y"; "B 2"]%string)
  = _parse_param_file MavProxy (reading ["A 1"; "B 2"]%string)
  /\ load MavProxy (reading ["A 1"; "# x y"; "B 2"]%string) ParamFile_new
     = load MavProxy (reading ["A 1"; "B 2"]%string) ParamFile_new.
Proof.
  apply (comment_row_is_skipped MavProxy
           (reading ["A 1"; "# x y"; "B 2"]%string)
           (reading ["A 1"; "B 2"]%string) ParamFile_new
           [Ok ["A"; "1"]%string] [Ok ["B"; "2"]%string] ["#"; "x"; "y"]%string);
    reflexivity.
Defined.

(** X5.  A text that holds nothing but comment rows, or nothing at all,
    loads as the empty mapping. *)
Theorem comments_only_load_empty :
  forall (cls : ParamFileClass) (file_ : TextIO.TextIO) (self : ParamFile)
         (rows : list (list string)),
    rows_of cls file_ rows ->
    forallb is_comment rows = true ->
    load cls file_ self = (set_parameters_attr self [], Ok tt).
Proof.
  intros cls file_ self rows Hrows Hc. unfold rows_of in Hrows.
  rewrite load_unfold, parse_unfold, Hrows. clear Hrows.
  assert (H : for_rows (row_body cls) (map Ok rows)
              = {| yielded := []; ended := Ok tt |}).
  { induction rows as [|data rows IH]; simpl; [reflexivity|].
    simpl in Hc. apply andb_true_iff in Hc. destruct Hc as [Hd Hr].
    rewrite (row_body_comment cls data Hd). now apply IH. }
  rewrite H. reflexivity.
Qed.

(** The theorem at the header that [save] writes in the tab-delimited
    format, and at the empty text. *)
Lemma comments_only_load_empty_witness :
  load QGroundControl
    (reading ["# NOTE: 04.03.2021 12:00:00"%string;
              "# Onboard parameters saved by mavparam for (1.1)"%string;
              ("# MAV ID" ++ tab ++ "COMPONENT ID" ++ tab ++ "PARAM NAME" ++ tab
               ++ "VALUE" ++ tab ++ "(TYPE)")%string]) file_FOO_3
  = (set_parameters_attr file_FOO_3 [], Ok tt)
  /\ load MavProxy (TextIO.open_text "") file_FOO_3
     = (set_parameters_attr file_FOO_3 [], Ok tt).
Proof.
  split.
  - apply (comments_only_load_empty QGroundControl _ file_FOO_3
             [["# NOTE: 04.03.2021 12:00:00"];
              ["# Onboard parameters saved by mavparam for (1.1)"];
              ["# MAV ID"; "COMPONENT ID"; "PARAM NAME"; "VALUE"; "(TYPE)"]]%string);
      reflexivity.
  - apply (comments_only_load_empty MavProxy _ file_FOO_3 []); reflexivity.
Defined.

(** ** The mapping that [load] stores *)

Lemma rstrip_with_idem (sp : ascii -> bool) (x : string) :
  Py.rstrip_with sp (Py.rstrip_with sp x) = Py.rstrip_with sp x.
Proof.
  induction x as [|c rest IH]; [reflexivity|].
  cbn [Py.rstrip_with].
  destruct (Py.rstrip_with sp rest) as [|d r] eqn:E.
  - destruct (sp c) eqn:Hc; [reflexivity|].
    cbn [Py.rstrip_with]. now rewrite Hc.
  - change (Py.rstrip_with sp (String c (String d r)))
      with (match Py.rstrip_with sp (String d r) with
            | EmptyString => if sp c then EmptyString else String c EmptyString
            | String a b => String c (String a b)
            end).
    now rewrite IH.
Qed.

Lemma lstrip_with_head (sp : ascii -> bool) (x : string) (c : ascii) (r : string) :
  Py.lstrip_with sp x = String c r -> sp c = false.
Proof.
  induction x as [|d rest IH]; [discriminate|].
  cbn [Py.lstrip_with]. destruct (sp d) eqn:Hd; [exact IH|].
  now intros [= <- _].
Qed.

Lemma lstrip_with_rstrip_with (sp : ascii -> bool) (c : ascii) (r : string) :
  sp c = false ->
  Py.lstrip_with sp (Py.rstrip_with sp (String c r)) = Py.rstrip_with sp (String c r).
Proof.
  intros Hc. cbn [Py.rstrip_with].
  destruct (Py.rstrip_with sp r); rewrite ?Hc; cbn [Py.lstrip_with]; now rewrite Hc.
Qed.

(** [strip] leaves a stripped text as it is. *)
Lemma strip_strip (x : string) : Py.strip (Py.strip x) = Py.strip x.
Proof.
  unfold Py.strip, Py.strip_with.
  destruct (Py.lstrip_with Py.isspace x) as [|c r] eqn:E; [reflexivity|].
  rewrite (lstrip_with_rstrip_with _ c r (lstrip_with_head _ _ _ _ E)).
  apply rstrip_with_idem.
Qed.

(** What the generator yields comes from a row that yields it. *)
Lemma for_rows_yielded (cls : ParamFileClass) (reader : list (result (list string)))
  (p : Parameter_) :
  In p (yielded (for_rows (row_body cls) reader)) ->
  exists data, In (Ok data) reader /\ row_body cls data = Ok (Some p).
Proof.
  induction reader as [|[data|e] reader IH]; simpl; [tauto| |tauto].
  destruct (row_body cls data) as [[q|]|e] eqn:Hb; simpl.
  - intros [<-|H].
    + exists data. auto.
    + destruct (IH H) as [d [Hin Hd]]. exists d. auto.
  - intros H. destruct (IH H) as [d [Hin Hd]]. exists d. auto.
  - tauto.
Qed.

Lemma to_type_numeric (v : scalar) :
  numeric v = true ->
  QGroundControlParam.to_type v = Ok 6 \/ QGroundControlParam.to_type v = Ok 9.
Proof. destruct v; try discriminate; intros _; [left|right]; reflexivity. Qed.

(** X6.  What a successful [load] stores, for each of the three classes: a
    mapping, with the stamp and the target untouched, in which every key
    is the name of its parameter, no key stands twice, every name is
    stripped of surrounding white space, and every value is an [int] or a
    [float] that [to_numeric] read in a row of the text, so that [to_type]
    tags it 6 or 9; never a string, a boolean or [None]. *)
Theorem loaded_mapping_well_formed :
  forall (cls : ParamFileClass) (file_ : TextIO.TextIO) (self self' : ParamFile),
    load cls file_ self = (self', Ok tt) ->
    exists d : dict.dict Parameter_,
      self' = set_parameters_attr self d
      /\ keys_are_names d
      /\ NoDup (dict.keys d)
      /\ forall k p,
          dict.get d k = Some p ->
          Py.strip (name p) = name p
          /\ numeric (value_ p) = true
          /\ (QGroundControlParam.to_type (value_ p) = Ok 6
              \/ QGroundControlParam.to_type (value_ p) = Ok 9)
          /\ exists data,
              In (Ok data) (csv.reader (TextIO.lines file_) (CSVDialect cls))
              /\ row_body cls data = Ok (Some p).
Proof.
  intros cls file_ self self'. rewrite load_unfold.
  destruct (ended (_parse_param_file cls file_)) as [[]|e]; [|discriminate].
  intros [= <-]. eexists. split; [reflexivity|].
  split; [|split].
  - intros k p H.
    destruct (dict_facts.of_items_from_item _ _ _ _ _ H) as [x [_ [Hk Hx]]].
    now subst.
  - apply dict_facts.of_items_NoDup.
  - intros k p H.
    destruct (dict_facts.of_items_from_item _ _ _ _ _ H) as [x [Hin [_ Hx]]].
    subst x. rewrite parse_unfold in Hin.
    destruct (for_rows_yielded _ _ _ Hin) as [data [Hd Hb]].
    destruct (row_body_yields _ _ _ Hb) as [_ [_ [n [v [Hn Hv]]]]].
    pose proof (to_numeric_numeric _ _ Hv) as Hnum.
    split; [rewrite Hn; apply strip_strip|].
    split; [exact Hnum|].
    split; [now apply to_type_numeric|].
    exists data. auto.
Qed.

(** The theorem at a text of two rows, the name of the first one padded. *)
Lemma loaded_mapping_well_formed_witness :
  exists d : dict.dict Parameter_,
    set_parameters_attr file_FOO_3
      [("A", {| name := "A"; value_ := VInt 1 |});
       ("B", {| name := "B"; value_ := VDouble one_and_a_half |})]%string
    = set_parameters_attr file_FOO_3 d
    /\ keys_are_names d
    /\ NoDup (dict.keys d)
    /\ forall k p,
        dict.get d k = Some p ->
        Py.strip (name p) = name p
        /\ numeric (value_ p) = true
        /\ (QGroundControlParam.to_type (value_ p) = Ok 6
            \/ QGroundControlParam.to_type (value_ p) = Ok 9)
        /\ exists data,
            In (Ok data)
              (csv.reader (TextIO.lines (reading [" A ,1"; "B,1.5"]%string))
                 (CSVDialect MissionPlanner))
            /\ row_body MissionPlanner data = Ok (Some p).
Proof.
  apply (loaded_mapping_well_formed MissionPlanner
           (reading [" A ,1"; "B,1.5"]%string) file_FOO_3).
  reflexivity.
Defined.

(** ** The order of the keys *)

Lemma keys_set {V : Type} (d : dict.dict V) (k : string) (v : V) :
  dict.keys (dict.set d k v)
  = if existsb (String.eqb k) (dict.keys d) then dict.keys d
    else dict.keys d ++ [k].
Proof.
  induction d as [|[k' v'] d IH]; [reflexivity|].
  cbn [dict.set dict.keys map fst existsb].
  destruct (String.eqb k k') eqn:E; cbn [orb map fst].
  - apply String.eqb_eq in E. now subst.
  - fold (dict.keys d). fold (dict.keys (dict.set d k v)). rewrite IH.
    now destruct (existsb (String.eqb k) (dict.keys d)).
Qed.

Lemma keys_fold {A V : Type} (key : A -> string) (val : A -> V)
  (items : list A) (d : dict.dict V) :
  dict.keys (fold_left (fun d x => dict.set d (key x) (val x)) items d)
  = dict.keys d ++ first_occurrences (dict.keys d) (map key items).
Proof.
  revert d. induction items as [|x items IH]; intros d; simpl.
  - now rewrite app_nil_r.
  - rewrite IH, keys_set.
    destruct (existsb (String.eqb (key x)) (dict.keys d)); [reflexivity|].
    now rewrite <- app_assoc.
Qed.

(** X7.  The keys of the mapping that [load] stores stand in the order in
    which their names first occur in the text: a later row of the same
    name changes the value and not the place. *)
Theorem loaded_keys_in_order_of_first_occurrence :
  forall (cls : ParamFileClass) (file_ : TextIO.TextIO) (self : ParamFile)
         (rows : list (list string)),
    rows_of cls file_ rows ->
    forallb (row_accepted cls) rows = true ->
    exists d : dict.dict Parameter_,
      load cls file_ self = (set_parameters_attr self d, Ok tt)
      /\ dict.keys d
         = first_occurrences [] (map name (flat_map (row_yield cls) rows)).
Proof.
  intros cls file_ self rows Hrows Hacc. unfold rows_of in Hrows.
  rewrite load_unfold, parse_unfold, Hrows.
  rewrite <- (app_nil_r (map Ok rows)), for_rows_accepted by exact Hacc.
  cbn [for_rows yielded ended]. rewrite app_nil_r.
  eexists. split; [reflexivity|].
  unfold dict.of_items. now rewrite keys_fold.
Qed.

(** The theorem at a text in which [A] comes back after [B]. *)
Lemma loaded_keys_in_order_of_first_occurrence_witness :
  exists d : dict.dict Parameter_,
    load MavProxy (reading ["A 1"; "B 2"; "A 3"]%string) ParamFile_new
    = (set_parameters_attr ParamFile_new d, Ok tt)
    /\ dict.keys d
       = first_occurrences []
           (map name (flat_map (row_yield MavProxy)
                        [["A"; "1"]; ["B"; "2"]; ["A"; "3"]]%string)).
Proof.
  apply (loaded_keys_in_order_of_first_occurrence MavProxy
           (reading ["A 1"; "B 2"; "A 3"]%string) ParamFile_new
           [["A"; "1"]; ["B"; "2"]; ["A"; "3"]]%string); reflexivity.
Defined.

(** ** The columns the tab-delimited format reads *)

Lemma same_name_and_value_row_body (r1 r2 : list string) :
  same_name_and_value r1 r2 = true ->
  row_body QGroundControl r1 = row_body QGroundControl r2.
Proof.
  destruct r1 as [|a1 [|b1 [|n1 [|v1 [|t1 [|x1 r1]]]]]]; try discriminate.
  destruct r2 as [|a2 [|b2 [|n2 [|v2 [|t2 [|x2 r2]]]]]]; try discriminate.
  cbn [same_name_and_value]. intros H.
  apply andb_true_iff in H. destruct H as [H Ha2].
  apply andb_true_iff in H. destruct H as [H Ha1].
  apply andb_true_iff in H. destruct H as [Hn Hv].
  apply String.eqb_eq in Hn, Hv. subst n2 v2.
  apply negb_true_iff in Ha1, Ha2.
  rewrite !row_body_cons, Ha1, Ha2. reflexivity.
Qed.

(** X8.  [load] of the tab-delimited class reads the name and the value
    columns and nothing else: two texts whose data rows agree on these two
    columns load to the same result, whatever their MAV ID, COMPONENT ID
    and type columns hold.  The type tag that [save] writes is never read
    back, and the target of the object is not set from the file. *)
Theorem QGroundControl_load_reads_name_and_value_only :
  forall (file1 file2 : TextIO.TextIO) (self : ParamFile)
         (rows1 rows2 : list (list string)),
    rows_of QGroundControl file1 rows1 ->
    rows_of QGroundControl file2 rows2 ->
    Forall2 (fun r1 r2 => r1 = r2 \/ same_name_and_value r1 r2 = true) rows1 rows2 ->
    load QGroundControl file1 self = load QGroundControl file2 self.
Proof.
  intros file1 file2 self rows1 rows2 H1 H2 H. unfold rows_of in H1, H2.
  rewrite !load_unfold, !parse_unfold, H1, H2.
  assert (E : for_rows (row_body QGroundControl) (map Ok rows1)
              = for_rows (row_body QGroundControl) (map Ok rows2)).
  { clear H1 H2. induction H as [|r1 r2 rows1 rows2 Hr _ IH]; [reflexivity|].
    cbn [map for_rows]. rewrite IH.
    destruct Hr as [->|Hr]; [reflexivity|].
    now rewrite (same_name_and_value_row_body r1 r2 Hr). }
  now rewrite E.
Qed.

(** The theorem at two texts of one row that differ in the target and in
    the type column: the integer 3 tagged as a float loads as an integer. *)
Lemma QGroundControl_load_reads_name_and_value_only_witness :
  load QGroundControl
    (reading [("1" ++ tab ++ "1" ++ tab ++ "FOO" ++ tab ++ "3" ++ tab ++ "6")%string])
    file_FOO_3
  = load QGroundControl
      (reading [("7" ++ tab ++ "x" ++ tab ++ "FOO" ++ tab ++ "3" ++ tab ++ "9")%string])
      file_FOO_3.
Proof.
  apply (QGroundControl_load_reads_name_and_value_only _ _ file_FOO_3
           [["1"; "1"; "FOO"; "3"; "6"]%string]
           [["7"; "x"; "FOO"; "3"; "9"]%string]);
    [reflexivity|reflexivity|].
  constructor; [right; reflexivity|constructor].
Defined.

(** ** Integers written and read back *)

(** X9.  The text that the csv writer puts in the value column for an
    integer, [str] of it, is read back by [to_numeric] as the same integer,
    whenever the writer can write it, that is for every integer of at most
    4300 digits. *)
Theorem to_numeric_reads_back_int :
  forall (repr_float : Py.float -> string) (z : Z) (text : string),
    csv.cell_text repr_float (cell_of_value (VInt z)) = Ok text ->
    to_numeric text = Ok (VInt z).
Proof.
  intros repr_float z text. cbn [cell_of_value csv.cell_text]. intros H.
  rewrite (str_text z text H), to_numeric_str_of_int. now rewrite H.
Qed.

(** The theorem at the integer -42. *)
Lemma to_numeric_reads_back_int_witness :
  to_numeric "-42" = Ok (VInt (-42)).
Proof.
  apply (to_numeric_reads_back_int (fun _ => ""%string) (-42) "-42"%string).
  reflexivity.
Defined.

(** * Further properties of [save] *)

Lemma append_assoc (a b c : string) : ((a ++ b) ++ c = a ++ (b ++ c))%string.
Proof. induction a as [|x a IH]; simpl; congruence. Qed.

Lemma default_stamp_fields (now : datetime.datetime) (self : ParamFile) :
  parameters (fst (default_stamp now self)) = parameters self
  /\ tgt_system (fst (default_stamp now self)) = tgt_system self
  /\ tgt_component (fst (default_stamp now self)) = tgt_component self
  /\ stamp (fst (default_stamp now self)) = Some (snd (default_stamp now self))
  /\ snd (default_stamp now self)
     = match stamp self with Some t => t | None => now end.
Proof.
  unfold default_stamp. destruct (stamp self) eqn:E; simpl; auto.
Qed.

(** [save] of the tab-delimited class, in one equation: the stamp is
    filled in, the three header rows are written, and the loop over the
    mapping decides the result. *)
Lemma QGroundControl_save_result (repr_float : Py.float -> string)
  (now : datetime.datetime) (file_ : TextIO.TextIO) (self : ParamFile) :
  save repr_float QGroundControl now file_ self
  = ((fst (default_stamp now self),
      fold_left TextIO.write
        (header_lines (fst (default_stamp now self)) (snd (default_stamp now self)))
        file_),
     match parameters self with
     | None => Raise TypeError
     | Some [] => Ok tt
     | Some (_ :: _) => Raise AttributeError
     end).
Proof.
  unfold save, QGroundControlParam.save.
  destruct (default_stamp_fields now self) as [Hp _].
  destruct (default_stamp now self) as [self' t].
  rewrite header_is_written. cbn [fst snd] in *.
  unfold iter_parameters. rewrite Hp.
  destruct (parameters self) as [[|[k v] d]|]; reflexivity.
Qed.


(** X11.  [save] stamps the object once.  After a call of [save], of any
    of the three classes and whether it returns or raises, the mapping and
    the target of the object are what they were and its stamp is the one
    it had, or the current time when it had none; a later [save] leaves
    the object as it is, whatever the time then. *)
Theorem save_stamps_once :
  forall (repr_float : Py.float -> string) (cls : ParamFileClass)
         (now later : datetime.datetime) (file_ file' : TextIO.TextIO)
         (self : ParamFile),
    let self1 := fst (fst (save repr_float cls now file_ self)) in
    parameters self1 = parameters self
    /\ tgt_system self1 = tgt_system self
    /\ tgt_component self1 = tgt_component self
    /\ stamp self1 = Some (match stamp self with Some t => t | None => now end)
    /\ fst (fst (save repr_float cls later file' self1)) = self1.
Proof.
  intros repr_float cls now later file_ file' self self1.
  assert (E : forall c n f s,
             fst (fst (save repr_float c n f s)) = fst (default_stamp n s)).
  { intros c n f s. destruct c.
    - unfold save, MavProxyParam.save.
      destruct (default_stamp n s) as [s' t']. reflexivity.
    - unfold save, MavProxyParam.save.
      destruct (default_stamp n s) as [s' t']. reflexivity.
    - now rewrite QGroundControl_save_result. }
  subst self1. rewrite !E.
  destruct (default_stamp_fields now self) as [Hp [Hs [Hc [Ht Hv]]]].
  rewrite Hv in Ht.
  repeat (split; [assumption|]).
  unfold default_stamp at 1. now rewrite Ht.
Qed.

(** * Further properties of the plugin *)

(** ** The store *)

Lemma get_in_keys_existsb {V : Type} (d : dict.dict V) (k : string) (v : V) :
  dict.get d k = Some v -> existsb (String.eqb k) (dict.keys d) = true.
Proof.
  induction d as [|[k' v'] d IH]; [discriminate|].
  cbn [dict.get dict.keys map fst existsb].
  destruct (String.eqb k k'); [reflexivity|exact IH].
Qed.


(** ** The dictionaries the helpers return *)

Lemma get_of_zip {V : Type} (names : list string) (reply : list V)
  (d : dict.dict V) (i : nat) (k : string) :
  NoDup names ->
  nth_error names i = Some k ->
  dict.get
    (fold_left (fun d x => dict.set d (fst x) (snd x)) (combine names reply) d) k
  = match nth_error reply i with
    | Some v => Some v
    | None => dict.get d k
    end.
Proof.
  revert reply d i.
  induction names as [|n names IH]; intros reply d i Hnd Hi;
    [destruct i; discriminate|].
  inversion Hnd as [|? ? Hn Hnd']; subst.
  destruct reply as [|v reply]; [now destruct i|].
  cbn [combine fold_left fst snd].
  destruct i as [|i]; cbn [nth_error] in *.
  - injection Hi as <-.
    rewrite (dict_facts.fold_keeps_other fst snd).
    + apply dict_facts.get_set_same.
    + apply forallb_forall. intros [k' v'] Hin. cbn [fst].
      apply negb_true_iff, String.eqb_neq. intros ->.
      apply Hn. eapply in_combine_l. exact Hin.
  - rewrite (IH reply (dict.set d n v) i Hnd' Hi).
    destruct (nth_error reply i); [reflexivity|].
    apply dict_facts.get_set_other. intros ->.
    apply Hn. eapply nth_error_In. exact Hi.
Qed.

(** X13.  What [call_get_parameters] and [call_set_parameters] return when
    the service is ready and the names asked for are distinct: the
    dictionary that gives, for the name at each place of the request, the
    value at the same place of the reply.  A name for which the reply has
    no value, the reply being shorter than the request, is left out
    without an error, and a value beyond the last name is dropped. *)
Theorem helpers_pair_names_with_reply :
  forall (PullResponse : Type) (remote : Remote PullResponse)
         (self : arg_value) (node : Node) (node_name : option string)
         (client : Client) (tr : trace),
    wait_ready remote tr client TIMEOUT = true ->
    (forall names : list string,
        NoDup names ->
        exists r,
          snd (call_get_parameters remote self node node_name (Some client) names tr)
          = Ok r
          /\ requests
               (fst (call_get_parameters remote self node node_name (Some client)
                       names tr))
             = requests tr ++ [(client, GetRequest names)]
          /\ (forall i k,
                 nth_error names i = Some k ->
                 dict.get r k
                 = nth_error
                     (get_reply remote (tr ++ [Waited client TIMEOUT]) client names) i)
          /\ (forall k, ~ In k names -> dict.get r k = None))
    /\ (forall parameters : list Parameter_,
           NoDup (map name parameters) ->
           exists r,
             snd (call_set_parameters remote self node node_name (Some client)
                    parameters tr)
             = Ok r
             /\ requests
                  (fst (call_set_parameters remote self node node_name (Some client)
                          parameters tr))
                = requests tr
                  ++ [(client, SetRequest (map to_parameter_msg parameters))]
             /\ (forall i p,
                    nth_error parameters i = Some p ->
                    dict.get r (name p)
                    = nth_error
                        (set_reply remote (tr ++ [Waited client TIMEOUT]) client
                           (map to_parameter_msg parameters)) i)
             /\ (forall k, ~ In k (map name parameters) -> dict.get r k = None)).
Proof.
  intros PR remote self node node_name client tr Hready.
  assert (Hout : forall (V : Type) (names : list string) (reply : list V) (k : string),
             ~ In k names -> dict.get (dict.of_items fst snd (combine names reply)) k = None).
  { intros V names reply k Hk.
    destruct (dict.get (dict.of_items fst snd (combine names reply)) k) as [v|] eqn:E;
      [|reflexivity].
    destruct (dict_facts.of_items_from_item _ _ _ _ _ E) as [[k' v'] [Hin [Hk' _]]].
    cbn [fst] in Hk'. subst k'. exfalso. apply Hk. eapply in_combine_l. exact Hin. }
  split.
  - intros names Hnd. eexists. split; [|split; [|split]].
    + unfold call_get_parameters, resolve_client, bind, wait_for_service, ret,
        raise, emit, call. simpl. rewrite Hready. simpl. reflexivity.
    + unfold call_get_parameters, resolve_client, bind, wait_for_service, ret,
        raise, emit, call. simpl. rewrite Hready. simpl.
      rewrite <- ?app_assoc, ?requests_app. simpl. now rewrite ?app_nil_r.
    + intros i k Hi. unfold dict.of_items.
      rewrite (get_of_zip names _ [] i k Hnd Hi).
      match goal with |- match ?x with _ => _ end = _ => destruct x end; reflexivity.
    + intros k Hk. now apply Hout.
  - intros parameters Hnd. eexists. split; [|split; [|split]].
    + unfold call_set_parameters, resolve_client, bind, wait_for_service, ret,
        raise, emit, call. simpl. rewrite Hready. simpl. reflexivity.
    + unfold call_set_parameters, resolve_client, bind, wait_for_service, ret,
        raise, emit, call. simpl. rewrite Hready. simpl.
      rewrite <- ?app_assoc, ?requests_app. simpl. now rewrite ?app_nil_r.
    + intros i p Hi. unfold dict.of_items.
      rewrite (get_of_zip (map name parameters) _ [] i (name p) Hnd
                 (map_nth_error name i parameters Hi)).
      match goal with |- match ?x with _ => _ end = _ => destruct x end; reflexivity.
    + intros k Hk. now apply Hout.
Qed.

(** The theorem at a remote side that is always ready. *)
Lemma helpers_pair_names_with_reply_witness :
  (forall names : list string,
      NoDup names ->
      exists r,
        snd (call_get_parameters remote_B ANone a_node None (Some set_client) names [])
        = Ok r
        /\ requests
             (fst (call_get_parameters remote_B ANone a_node None (Some set_client)
                     names []))
           = requests [] ++ [(set_client, GetRequest names)]
        /\ (forall i k,
               nth_error names i = Some k ->
               dict.get r k
               = nth_error
                   (get_reply remote_B ([] ++ [Waited set_client TIMEOUT]) set_client
                      names) i)
        /\ (forall k, ~ In k names -> dict.get r k = None))
  /\ (forall parameters : list Parameter_,
         NoDup (map name parameters) ->
         exists r,
           snd (call_set_parameters remote_B ANone a_node None (Some set_client)
                  parameters [])
           = Ok r
           /\ requests
                (fst (call_set_parameters remote_B ANone a_node None (Some set_client)
                        parameters []))
              = requests []
                ++ [(set_client, SetRequest (map to_parameter_msg parameters))]
           /\ (forall i p,
                  nth_error parameters i = Some p ->
                  dict.get r (name p)
                  = nth_error
                      (set_reply remote_B ([] ++ [Waited set_client TIMEOUT])
                         set_client (map to_parameter_msg parameters)) i)
           /\ (forall k, ~ In k (map name parameters) -> dict.get r k = None)).
Proof.
  apply (helpers_pair_names_with_reply _ remote_B ANone a_node None set_client []).
  reflexivity.
Defined.

(** * What [save] writes, read back *)

Lemma length_append (a b : string) :
  String.length (a ++ b) = (String.length a + String.length b)%nat.
Proof. induction a as [|c a IH]; simpl; congruence. Qed.

Lemma all_chars_app (test : ascii -> bool) (a b : string) :
  all_chars test (a ++ b) = all_chars test a && all_chars test b.
Proof.
  induction a as [|c a IH]; simpl; [reflexivity|].
  now rewrite IH, andb_assoc.
Qed.

Lemma uint_text_plain_chars (u : Decimal.uint) :
  all_chars plain_char (NilEmpty.string_of_uint u) = true.
Proof. induction u; simpl; auto. Qed.

Lemma str_of_int_plain_chars (z : Z) : all_chars plain_char (Py.str_of_int z) = true.
Proof.
  rewrite str_of_int_text. destruct z as [|p|p]; [reflexivity| |].
  - apply uint_text_plain_chars.
  - cbn [all_chars]. now rewrite uint_text_plain_chars.
Qed.

Lemma two_digits_plain_chars (n : Z) :
  all_chars plain_char (datetime.two_digits n) = true.
Proof.
  unfold datetime.two_digits. destruct (n <? 10).
  - rewrite all_chars_app, str_of_int_plain_chars. reflexivity.
  - apply str_of_int_plain_chars.
Qed.

Lemma strftime_plain_chars (t : datetime.datetime) :
  all_chars plain_char (datetime.strftime t) = true.
Proof.
  unfold datetime.strftime.
  repeat rewrite all_chars_app.
  repeat rewrite two_digits_plain_chars. rewrite str_of_int_plain_chars.
  reflexivity.
Qed.

(** The lines of a text: a run of plain characters up to a line feed is
    one line. *)
Lemma splitlines_plain (s line rest : string) :
  all_chars plain_char s = true ->
  TextIO.splitlines line (s ++ String "010" rest)
  = (line ++ s ++ nl)%string :: TextIO.splitlines "" rest.
Proof.
  revert line. induction s as [|c s IH]; intros line H.
  - reflexivity.
  - cbn [all_chars] in H. apply andb_true_iff in H. destruct H as [Hc Hs].
    unfold plain_char, csv.is_newline in Hc.
    apply andb_true_iff in Hc. destruct Hc as [_ Hc].
    apply negb_true_iff, orb_false_iff in Hc. destruct Hc as [Hlf Hcr].
    cbn [append TextIO.splitlines]. rewrite Hlf, Hcr.
    rewrite IH by exact Hs. now rewrite append_assoc.
Qed.

(** The reader inside a field: plain characters are added to the field,
    as long as the field stays within the limit. *)
Lemma parse_line_in_field (s pre line : string) (fs : list string) :
  all_chars plain_char s = true ->
  Z.of_nat (String.length pre + String.length s) <= csv.field_limit ->
  csv.parse_line QGroundControlParam.CSVDialect
    {| csv.fields := fs; csv.field := pre; csv.state := csv.IN_FIELD |}
    (s ++ line)
  = csv.parse_line QGroundControlParam.CSVDialect
      {| csv.fields := fs; csv.field := (pre ++ s)%string; csv.state := csv.IN_FIELD |}
      line.
Proof.
  revert pre. induction s as [|c s IH]; intros pre H Hlen.
  - cbn [append]. replace (pre ++ "")%string with pre; [reflexivity|].
    clear. induction pre; simpl; congruence.
  - cbn [all_chars] in H. apply andb_true_iff in H. destruct H as [Hc Hs].
    unfold plain_char in Hc.
    apply andb_true_iff in Hc. destruct Hc as [Htab Hnl].
    apply negb_true_iff in Htab, Hnl.
    cbn [append csv.parse_line csv.parse_process_char csv.state].
    rewrite Hnl. cbn [csv.delimiter QGroundControlParam.CSVDialect]. rewrite Htab.
    unfold csv.parse_add_char. cbn [csv.field csv.fields].
    cbn [String.length] in Hlen.
    destruct (csv.field_limit <=? Z.of_nat (String.length pre)) eqn:E;
      [apply Z.leb_le in E; lia|].
    rewrite IH; [now rewrite append_assoc|exact Hs|].
    rewrite length_append. cbn [String.length]. lia.
Qed.

(** A line of one field that starts with [#]. *)
Lemma parse_line_comment (s : string) :
  all_chars plain_char s = true ->
  Z.of_nat (String.length (String "#" s)) <= csv.field_limit ->
  csv.parse_line QGroundControlParam.CSVDialect csv.parse_reset
    (String "#" s ++ nl)
  = Ok [String "#" s].
Proof.
  intros H Hlen.
  change (csv.parse_line QGroundControlParam.CSVDialect csv.parse_reset
            (String "#" s ++ nl))
    with (csv.parse_line QGroundControlParam.CSVDialect
            {| csv.fields := []; csv.field := "#"; csv.state := csv.IN_FIELD |}
            (s ++ nl)).
  rewrite parse_line_in_field; [reflexivity|exact H|].
  cbn [String.length] in *. lia.
Qed.

Lemma for_rows_comments (cls : ParamFileClass) (rows : list (list string)) :
  forallb is_comment rows = true ->
  for_rows (row_body cls) (map Ok rows) = {| yielded := []; ended := Ok tt |}.
Proof.
  induction rows as [|data rows IH]; simpl; [reflexivity|].
  intros Hc. apply andb_true_iff in Hc. destruct Hc as [Hd Hr].
  rewrite (row_body_comment cls data Hd). now apply IH.
Qed.

(** X14.  [save] of the tab-delimited class followed by [load] of what it
    wrote gives the mapping back in the one case in which [save] returns:
    the empty mapping.  The three header rows are read as comments, as
    long as the first two stay within the field size limit of the csv
    reader.  For every other object the round trip is the error of
    [save]. *)
Theorem QGroundControl_round_trip :
  forall (repr_float : Py.float -> string) (now : datetime.datetime)
         (self : ParamFile),
    let t := match stamp self with Some t => t | None => now end in
    Z.of_nat (String.length ("# NOTE: " ++ datetime.strftime t)) <= csv.field_limit ->
    Z.of_nat (String.length
                ("# Onboard parameters saved by mavparam for ("
                 ++ Py.str_of_int (tgt_system self) ++ "."
                 ++ Py.str_of_int (tgt_component self) ++ ")")) <= csv.field_limit ->
    round_trip repr_float QGroundControl now self
    = match parameters self with
      | None => Raise TypeError
      | Some [] => Ok (Some [])
      | Some (_ :: _) => Raise AttributeError
      end.
Proof.
  intros repr_float now self t H1 H2.
  unfold round_trip, render. rewrite QGroundControl_save_result.
  destruct (parameters self) as [[|[k v] d]|]; [|reflexivity|reflexivity].
  destruct (default_stamp_fields now self) as [_ [Hs [Hc [_ Ht]]]].
  fold t in Ht. rewrite Ht.
  unfold header_lines. rewrite Hs, Hc.
  cbn [fst snd fold_left TextIO.write TextIO.written TextIO.open_text].
  unfold parse. rewrite load_unfold, parse_unfold.
  unfold TextIO.open_text. cbn [TextIO.lines].
  set (a := (" NOTE: " ++ datetime.strftime t)%string) in *.
  set (b := (" Onboard parameters saved by mavparam for ("
             ++ Py.str_of_int (tgt_system self) ++ "."
             ++ Py.str_of_int (tgt_component self) ++ ")")%string) in *.
  assert (Ha : all_chars plain_char a = true).
  { subst a. now rewrite all_chars_app, strftime_plain_chars. }
  assert (Hb : all_chars plain_char b = true).
  { subst b. repeat rewrite all_chars_app.
    now rewrite !str_of_int_plain_chars. }
  change ("" ++ ?x)%string with x.
  change ("# NOTE: " ++ datetime.strftime t)%string with (String "#" a) in *.
  change ("# Onboard parameters saved by mavparam for ("
          ++ Py.str_of_int (tgt_system self) ++ "."
          ++ Py.str_of_int (tgt_component self) ++ ")")%string
    with (String "#" b) in *.
  rewrite !append_assoc.
  change (String "#" a ++ nl ++ ?r)%string with (String "#" (a ++ String "010" r)).
  cbn [TextIO.splitlines].
  change (Ascii.eqb "#" "010") with false.
  change (Ascii.eqb "#" "013") with false. cbv iota.
  rewrite (splitlines_plain a) by exact Ha.
  change (String "#" b ++ nl ++ ?r)%string with (String "#" (b ++ String "010" r)).
  cbn [TextIO.splitlines].
  change (Ascii.eqb "#" "010") with false.
  change (Ascii.eqb "#" "013") with false. cbv iota.
  rewrite (splitlines_plain b) by exact Hb.
  unfold csv.reader. cbn [map CSVDialect].
  change (("" ++ "#") ++ ?x ++ nl)%string with (String "#" x ++ nl)%string.
  rewrite (parse_line_comment a Ha H1), (parse_line_comment b Hb H2).
  reflexivity.
Qed.

(** The theorem at an object with the empty mapping. *)
Lemma QGroundControl_round_trip_witness :
  round_trip (fun _ => ""%string) QGroundControl noon (set_parameters_attr file_FOO_3 [])
  = Ok (Some []).
Proof.
  apply (QGroundControl_round_trip (fun _ => ""%string) noon
           (set_parameters_attr file_FOO_3 []));
    vm_compute; discriminate.
Defined.
